(** * simple-ids: the stateful detection engine of the two network analyzers

    A shallow embedding of [simple_ids/analyzers/network_analyzer.py]
    (class [NetworkAnalyzer]) and [simple_ids/analyzers/ml_network_analyzer.py]
    (class [MLNetworkAnalyzer]).

    Conventions of the embedding.
    - A packet is the Python dict the analyzers read with [packet.get(key, default)]:
      a record of optional fields, [None] standing for a missing key.
    - Clock readings ([time.time()]) and classifier confidences are floats;
      a float is modelled as the rational it denotes ([Q]).  The operations
      on floats whose result depends on rounding, or on the width in which
      NumPy carries them out (the mean of the recorded confidences, the
      comparison with a decimal literal that is not a float, the rendering
      with two decimals), are operations of a float runtime [Py.floats],
      over which the analyzer is parameterised.  Ports and sizes are Python
      ints ([Z]), addresses and names are strings.
    - The tracking dicts of the analyzers are finite maps ([gmap]); a detector
      that iterates over such a dict visits its items in the order of
      [map_to_list], where Python visits them in insertion order.  The
      alerts of the two detectors of [NetworkAnalyzer] are therefore the
      code's up to their order among themselves, and the properties below
      count them or describe their members.  The batch-local [flows] dict
      keeps Python's insertion order (an association list), because its
      string keys are taken apart again and the order of its alerts is that
      of the flows.
    - A method that mutates [self] returns the new state; a method that can
      raise returns a [result], and the state it had reached when it raised. *)

From Stdlib Require Import ZArith QArith Qabs Lia String Ascii DecimalString DecimalZ.
From stdpp Require Import gmap strings list fin_maps.

Open Scope string_scope.
Open Scope list_scope.

(** ** Python values used by both analyzers *)

Module Py.

Inductive exn := ValueError | OverflowError.

Inductive result (A : Type) :=
| Ok (a : A)
| Raise (e : exn).
Arguments Ok {A} a.
Arguments Raise {A} e.

(** Statements in sequence: the first [raise] ends the block. *)
#[global] Instance result_bind : MBind result := λ A B k r,
  match r with
  | Ok a => k a
  | Raise e => Raise e
  end.

(** [str(n)] and [f"{n}"] for an int. *)
Definition str_of_Z (z : Z) : string := NilZero.string_of_int (Z.to_int z).
Definition str_of_nat (n : nat) : string := str_of_Z (Z.of_nat n).

(** [int(s)] on a string: an optional [-] and decimal digits.  Python also
    accepts a [+] sign, surrounding blanks and [_] separators; [int] is only
    ever applied here to the last field of a flow key, which [str_of_Z]
    wrote. *)
Definition int_of_str (s : string) : result Z :=
  match NilZero.int_of_string s with
  | Some d => Ok (Z.of_int d)
  | None => Raise ValueError
  end.

(** [s.split(sep)] for a one-character separator: never returns []. *)
Fixpoint split (sep : ascii) (s : string) : list string :=
  match s with
  | EmptyString => [EmptyString]
  | String c s' =>
      if Ascii.eqb c sep then EmptyString :: split sep s'
      else match split sep s' with
           | w :: ws => String c w :: ws
           | [] => [String c EmptyString]
           end
  end.

(** [bool(s)] for a string. *)
Definition truthy (s : string) : bool :=
  match s with
  | EmptyString => false
  | String _ _ => true
  end.

(** [l[-n:]] for a positive constant [n]. *)
Definition lastn {A} (n : nat) (l : list A) : list A := drop (length l - n) l.

(** [sum(l)] over ints. *)
Definition sumZ (l : list Z) : Z := fold_left Z.add l 0%Z.

(** [a > b] on two floats: the comparison of the numbers they denote.  It
    is also [a > c] for a literal [c] that is itself a float of every width
    in use (such as [0.75]). *)
Definition Qgtb (a b : Q) : bool := negb (Qle_bool a b).

(** [a / b] on two ints, for whether it returns.  True division rounds the
    quotient to the nearest double, ties to even, and raises [OverflowError]
    when the rounded quotient is not finite, that is from the midpoint
    [2^1024 - 2^970] of the largest double and [2^1024] on.  The divisors
    are positive constants of the source. *)
Definition double_overflow : Z := (2 ^ 1024 - 2 ^ 970)%Z.

Definition true_div_overflows (a b : Z) : bool :=
  (double_overflow * Z.abs b <=? Z.abs a)%Z.

Definition true_div (a b : Z) : result unit :=
  if true_div_overflows a b then Raise OverflowError else Ok ().

(** The float runtime: the operations on floats whose result is not fixed by
    the numbers alone.
    - [mean l] is [sum(l) / len(l)] for a non-empty list of confidences, the
      sum and the quotient rounded in the width NumPy gives them;
    - [gt x c] is [x > c] for a decimal literal [c] of the source that is
      not a float ([0.9], [0.85]): the literal is rounded to the width of
      the comparison;
    - [format_2f x] is [f"{x:.2f}"], the float rendered with two decimals. *)
Record floats := mk_floats {
  mean : list Q → Q;
  gt : Q → Q → bool;
  format_2f : Q → string
}.

End Py.

#[global] Instance Qlt_decision (a b : Q) : Decision (a < b)%Q.
Proof. unfold Qlt. apply Z_lt_dec. Defined.

(** ** Packets and alerts *)

Record packet := mk_packet {
  src : option string;
  dst : option string;
  sport : option Z;
  dport : option Z;
  proto : option string;
  size_ : option Z;      (* key 'size' *)
  flags : option string;
  frame_type : option string;
  frame_subtype : option string;
  src_mac : option string
}.

(** [packet.get(key, d)] *)
Definition get {A} (field : packet → option A) (d : A) (p : packet) : A :=
  default d (field p).

Inductive severity := low | medium | high.

Record alert := mk_alert {
  timestamp : Q;
  type : string;
  alert_severity : severity;
  source : string;
  description : string
}.

(** ** The [ipaddress] library

    Both analyzers share [_is_internal_ip]:
    [try: return ipaddress.ip_address(ip).is_private / except ValueError: return False].
    The library call is a parameter of the development: [Some b] when the
    string parses as an address whose [is_private] is [b], [None] when
    [ip_address] raises [ValueError]. *)

Definition _is_internal_ip (ip_is_private : string → option bool) (ip : string) : bool :=
  match ip_is_private ip with
  | Some b => b
  | None => false
  end.

(** An instance of the library for dotted-quad IPv4 strings, used to run the
    analyzers on concrete batches: the IPv4 parser of [ipaddress] (four
    decimal octets, at most three digits each, no leading zero) and
    [is_private] as CPython 3.11.2 has it, an address of one of
    [_private_networks] and of none of [_private_networks_exceptions].
    Strings that are not dotted quads are answered [None]; the library does
    the same except on well-formed IPv6 literals, on which this instance is
    not consulted below. *)

Module Ipv4.

Definition octet (s : string) : option Z :=
  match s with
  | EmptyString => None
  | String c rest =>
      if (3 <? String.length s)%nat then None
      else if Ascii.eqb c "0" && negb (String.eqb rest "") then None
      else match NilEmpty.uint_of_string s with
           | Some d => let n := Z.of_uint d in if (n <=? 255)%Z then Some n else None
           | None => None
           end
  end.

Definition ip_address (s : string) : option Z :=
  match Py.split "." s with
  | [a; b; c; d] =>
      a ← octet a; b ← octet b; c ← octet c; d ← octet d;
      Some (((a * 256 + b) * 256 + c) * 256 + d)%Z
  | _ => None
  end.

Definition network (a b c d prefix : Z) : Z * Z :=
  ((((a * 256 + b) * 256 + c) * 256 + d)%Z, (2 ^ (32 - prefix))%Z).

Definition _private_networks : list (Z * Z) :=
  [ network 0 0 0 0 8; network 10 0 0 0 8; network 127 0 0 0 8;
    network 169 254 0 0 16; network 172 16 0 0 12; network 192 0 0 0 24;
    network 192 0 0 170 31; network 192 0 2 0 24; network 192 168 0 0 16;
    network 198 18 0 0 15; network 198 51 100 0 24; network 203 0 113 0 24;
    network 240 0 0 0 4; network 255 255 255 255 32 ]%Z.

Definition _private_networks_exceptions : list (Z * Z) :=
  [ network 192 0 0 9 32; network 192 0 0 10 32 ]%Z.

(** [addr in net] *)
Definition in_network (addr : Z) (net : Z * Z) : bool :=
  (addr / net.2 =? net.1 / net.2)%Z.

Definition is_private (addr : Z) : bool :=
  existsb (in_network addr) _private_networks
  && forallb (λ net, negb (in_network addr net)) _private_networks_exceptions.

Definition ip_is_private (s : string) : option bool :=
  is_private <$> ip_address s.

End Ipv4.

(** ** [NetworkAnalyzer] *)

Module NetworkAnalyzer.

Record state := mk_state {
  ip_port_access : gmap string (list (Q * Z));
  deauth_frames : gmap string (list Q)
}.

(** [__init__] *)
Definition port_scan_threshold : nat := 10.
Definition port_scan_window : Z := 5.
Definition deauth_threshold : nat := 5.
Definition deauth_window : Z := 3.

Definition init : state :=
  {| ip_port_access := ∅; deauth_frames := ∅ |}.

Definition suspicious_ports : gmap Z string :=
  list_to_map [(22%Z, "SSH"); (3389%Z, "RDP"); (445%Z, "SMB")].

(** [d.setdefault(k, []).append(x)], written in the source as a membership
    test followed by [append]. *)
Definition record {A} (k : string) (x : A) (d : gmap string (list A)) : gmap string (list A) :=
  <[k := default [] (d !! k) ++ [x]]> d.

Definition access_attempt_alert (current_time : Q) (src_ip name : string) (dst_port : Z) : alert :=
  {| timestamp := current_time;
     type := name +:+ " Access Attempt";
     alert_severity := medium;
     source := "network_traffic";
     description := "External IP " +:+ src_ip +:+ " attempting to connect to "
                      +:+ name +:+ " port " +:+ Py.str_of_Z dst_port |}.

Section WithIpaddress.
Variable ip_is_private : string → option bool.

(** The alert of the watchlist-port check for one packet, if any. *)
Definition check_attack_port (current_time : Q) (src_ip : string) (dst_port : Z) : list alert :=
  match suspicious_ports !! dst_port with
  | Some name =>
      if Py.truthy src_ip && negb (_is_internal_ip ip_is_private src_ip)
      then [access_attempt_alert current_time src_ip name dst_port]
      else []
  | None => []
  end.

(** One iteration of the [for packet in network_data] loop of [analyze]. *)
Definition track_packet (current_time : Q) (acc : state * list alert) (p : packet)
  : state * list alert :=
  let '(st, alerts) := acc in
  let src_ip := get src "" p in
  let dst_port := get dport 0%Z p in
  let access :=
    if Py.truthy src_ip
    then record src_ip (current_time, dst_port) (ip_port_access st)
    else ip_port_access st in
  let deauth :=
    if bool_decide (get frame_type "" p = "management")
       && bool_decide (get frame_subtype "" p = "deauth")
       && Py.truthy (get src_mac "" p)
    then record (get src_mac "" p) current_time (deauth_frames st)
    else deauth_frames st in
  ({| ip_port_access := access; deauth_frames := deauth |},
   alerts ++ check_attack_port current_time src_ip dst_port).

Definition port_scan_alert (current_time : Q) (ip : string) (n : nat) : alert :=
  {| timestamp := current_time;
     type := "Potential Port Scan";
     alert_severity := high;
     source := "network_traffic";
     description := "IP " +:+ ip +:+ " accessed " +:+ Py.str_of_nat n
                      +:+ " different ports in " +:+ Py.str_of_Z port_scan_window
                      +:+ " seconds" |}.

Definition recent_accesses (current_time : Q) (accesses : list (Q * Z)) : list (Q * Z) :=
  filter (λ a, current_time - inject_Z port_scan_window < a.1)%Q accesses.

Definition unique_ports (current_time : Q) (accesses : list (Q * Z)) : gset Z :=
  list_to_set (recent_accesses current_time accesses).*2.

Definition scan_of_ip (current_time : Q) (item : string * list (Q * Z)) : list alert :=
  let n := size (unique_ports current_time item.2) in
  if decide (port_scan_threshold ≤ n)%nat
  then [port_scan_alert current_time item.1 n]
  else [].

Definition _detect_port_scans (current_time : Q) (st : state) : list alert :=
  map_to_list (ip_port_access st) ≫= scan_of_ip current_time.

Definition deauth_alert (current_time : Q) (mac : string) (n : nat) : alert :=
  {| timestamp := current_time;
     type := "WiFi Deauthentication Attack";
     alert_severity := high;
     source := "network_traffic";
     description := "Possible deauthentication attack detected from MAC " +:+ mac
                      +:+ ": " +:+ Py.str_of_nat n +:+ " deauth frames in "
                      +:+ Py.str_of_Z deauth_window +:+ " seconds" |}.

Definition deauth_of_mac (current_time : Q) (item : string * list Q) : list alert :=
  let recent_frames :=
    filter (λ t, current_time - inject_Z deauth_window < t)%Q item.2 in
  if decide (deauth_threshold ≤ length recent_frames)%nat
  then [deauth_alert current_time item.1 (length recent_frames)]
  else [].

Definition _detect_deauth_attacks (current_time : Q) (st : state) : list alert :=
  map_to_list (deauth_frames st) ≫= deauth_of_mac current_time.

(** What one key of a tracking dict becomes in [_cleanup_old_entries]:
    its filtered list, or nothing when that list is empty. *)
Definition reap_entry {A} (P : A → Prop) `{!∀ x, Decision (P x)} (l : list A)
  : option (list A) :=
  match filter P l with
  | [] => None
  | l' => Some l'
  end.

Definition _cleanup_old_entries (cutoff_time : Q) (st : state) : state :=
  {| ip_port_access :=
       omap (reap_entry (λ a, cutoff_time < a.1)%Q) (ip_port_access st);
     deauth_frames :=
       omap (reap_entry (λ t, cutoff_time < t)%Q) (deauth_frames st) |}.

Definition analyze (network_data : list packet) (current_time : Q) (st : state)
  : list alert * state :=
  match network_data with
  | [] => ([], st)
  | _ =>
      let '(st1, alerts) := fold_left (track_packet current_time) network_data (st, []) in
      let alerts := alerts ++ _detect_port_scans current_time st1 in
      let alerts := alerts ++ _detect_deauth_attacks current_time st1 in
      (alerts, _cleanup_old_entries (current_time - 60) st1)
  end.

End WithIpaddress.

End NetworkAnalyzer.

(** ** [MLNetworkAnalyzer] *)

Module MLNetworkAnalyzer.

(** A value of [ip_behavior]: [{'packets': .., 'last_seen': .., 'scores': [..]}]. *)
Record behavior := mk_behavior {
  packets : nat;
  last_seen : Q;
  scores : list Q
}.

Record state := mk_state {
  packet_history : list packet;
  ip_behavior : gmap string behavior
}.

(** [__init__] *)
Definition history_limit : nat := 1000.
Definition batch_size : nat := 64.
Definition anomaly_threshold : Q := 0.85.
Definition probability_threshold : Q := 0.75.

Definition attack_types : gmap nat string :=
  list_to_map [(0, "Normal Traffic"); (1, "Port Scan"); (2, "DoS Attack");
               (3, "Brute Force"); (4, "Data Exfiltration"); (5, "Command and Control")].

Definition init : state :=
  {| packet_history := []; ip_behavior := ∅ |}.

(** One iteration of the behaviour-tracking loop of [analyze]. *)
Definition observe (current_time : Q) (beh : gmap string behavior) (p : packet)
  : gmap string behavior :=
  let src_ip := get src "" p in
  if Py.truthy src_ip then
    let b := default {| packets := 0; last_seen := 0; scores := [] |} (beh !! src_ip) in
    <[src_ip := {| packets := S (packets b);
                   last_seen := current_time;
                   scores := scores b |}]> beh
  else beh.

(** The score update of [_run_ml_detection]: append, keep the last 10. *)
Definition record_score (src_ip : string) (attack_confidence : Q)
    (beh : gmap string behavior) : gmap string behavior :=
  match beh !! src_ip with
  | Some b =>
      let appended := scores b ++ [attack_confidence] in
      let kept := if decide (10 < length appended)%nat
                  then Py.lastn 10 appended else appended in
      <[src_ip := {| packets := packets b; last_seen := last_seen b; scores := kept |}]> beh
  | None => beh
  end.

Definition ml_alert (fl : Py.floats) (now : Q) (attack_type_idx : nat)
    (attack_confidence : Q) (p : packet) : alert :=
  {| timestamp := now;
     type := "ML Detected: " +:+ default "Unknown Attack" (attack_types !! attack_type_idx);
     alert_severity := if Py.gt fl attack_confidence 0.9 then high else medium;
     source := "ml_network_analyzer";
     description :=
       "ML detected " +:+ default "anomalous traffic" (attack_types !! attack_type_idx)
         +:+ " from IP " +:+ get src "unknown" p +:+ " to " +:+ get dst "unknown" p
         +:+ " (confidence: " +:+ Py.format_2f fl attack_confidence +:+ ")" |}.

Definition svm_alert (now : Q) (p : packet) : alert :=
  {| timestamp := now;
     type := "ML Detected: Suspicious Traffic Pattern";
     alert_severity := medium;
     source := "ml_network_analyzer";
     description := "SVM model detected suspicious traffic pattern from IP "
                      +:+ get src "unknown" p +:+ " to " +:+ get dst "unknown" p |}.

Definition no_packet : packet :=
  mk_packet None None None None None None None None None None.

(** [packets[i] if i < len(packets) else packets[-1]]; the list is not empty
    where this is used. *)
Definition packet_at (pkts : list packet) (i : nat) : packet :=
  match pkts !! i with
  | Some p => p
  | None => List.last pkts no_packet
  end.

(** One iteration of the loop over the CNN predictions; a prediction is
    given as its [argmax] and the confidence at that index.  The threshold
    [0.75] is a float of every width, so that the comparison with it is the
    comparison of the numbers. *)
Definition cnn_step (fl : Py.floats) (now : Q) (pkts : list packet)
    (acc : list alert * gmap string behavior) (ipred : nat * (nat * Q))
  : list alert * gmap string behavior :=
  let '(alerts, beh) := acc in
  let '(i, (attack_type_idx, attack_confidence)) := ipred in
  let p := packet_at pkts i in
  if bool_decide (0 < attack_type_idx)%nat && Py.Qgtb attack_confidence probability_threshold
  then (alerts ++ [ml_alert fl now attack_type_idx attack_confidence p],
        record_score (get src "" p) attack_confidence beh)
  else (alerts, beh).

Definition svm_step (now : Q) (pkts : list packet) (ipred : nat * Z) : list alert :=
  if decide (0 < ipred.2)%Z then [svm_alert now (packet_at pkts ipred.1)] else [].

Definition flow_key (p : packet) : string :=
  get src "" p +:+ ":" +:+ get dst "" p +:+ ":" +:+ Py.str_of_Z (get dport 0%Z p).

(** [if flow_key not in flows: flows[flow_key] = []] and
    [flows[flow_key].append(packet)] on the insertion-ordered dict. *)
Fixpoint flows_add (key : string) (p : packet) (flows : list (string * list packet))
  : list (string * list packet) :=
  match flows with
  | [] => [(key, [p])]
  | (k, ps) :: rest =>
      if decide (k = key) then (k, ps ++ [p]) :: rest
      else (k, ps) :: flows_add key p rest
  end.

Definition group_flows (network_data : list packet) : list (string * list packet) :=
  fold_left (λ flows p, flows_add (flow_key p) p flows) network_data [].

Definition brute_force_alert (current_time : Q) (src_ip dst_ip : string) (dst_port : Z) : alert :=
  {| timestamp := current_time;
     type := "Potential Brute Force";
     alert_severity := high;
     source := "ml_network_analyzer";
     description := "Excessive connection attempts from " +:+ src_ip +:+ " to "
                      +:+ dst_ip +:+ ":" +:+ Py.str_of_Z dst_port |}.

Definition large_transfer_alert (current_time : Q) (src_ip dst_ip : string) : alert :=
  {| timestamp := current_time;
     type := "Large Data Transfer";
     alert_severity := medium;
     source := "ml_network_analyzer";
     description := "Large data transfer from " +:+ src_ip +:+ " to external IP " +:+ dst_ip |}.

Definition persistent_alert (fl : Py.floats) (current_time : Q) (src_ip : string)
    (avg_score : Q) : alert :=
  {| timestamp := current_time;
     type := "Persistent Anomalous Behavior";
     alert_severity := high;
     source := "ml_network_analyzer";
     description := "IP " +:+ src_ip +:+ " shows persistent anomalous behavior (score: "
                      +:+ Py.format_2f fl avg_score +:+ ")" |}.

Definition brute_force_ports : list Z := [22; 23; 3389; 445]%Z.

(** [_cleanup_old_data] *)
Definition _cleanup_old_data (cutoff_time : Q) (beh : gmap string behavior)
  : gmap string behavior :=
  filter (λ kv, ¬ (last_seen kv.2 < cutoff_time)%Q) beh.

(** The true divisions in the body of the loop of [_extract_features], in
    the order of the source: [src_port / 65535], [dst_port / 65535],
    [size / 1500] and, for a tracked source,
    [self.ip_behavior[src_ip]['packets'] / 1000].  ([proto_num / 3] divides
    a number from 0 to 3.) *)
Definition feature_divisions (beh : gmap string behavior) (p : packet) : Py.result unit :=
  _ ← Py.true_div (get sport 0%Z p) 65535;
  _ ← Py.true_div (get dport 0%Z p) 65535;
  _ ← Py.true_div (get size_ 0%Z p) 1500;
  match beh !! get src "0.0.0.0" p with
  | Some b => Py.true_div (Z.of_nat (packets b)) 1000
  | None => Py.Ok ()
  end.

(** [_extract_features], for whether it returns: the call is outside every
    [try], and a division that overflows ends [analyze].  The rows it
    returns are only read by the classifiers. *)
Fixpoint _extract_features (beh : gmap string behavior) (pkts : list packet)
  : Py.result unit :=
  match pkts with
  | [] => Py.Ok ()
  | p :: rest => _ ← feature_divisions beh p; _extract_features beh rest
  end.

Section WithModels.
Variable fl : Py.floats.
Variable ip_is_private : string → option bool.

(** [self.models]: the classifiers found by [_load_models], [None] for one
    that is not loaded.  A loaded classifier stands for the reshaping and
    the [predict] call on the rows that [_extract_features] returned for
    the packets and [ip_behavior]: it answers [None] when that raises inside
    the [try] of [_run_ml_detection], and otherwise the predictions (for
    the CNN the [argmax] and its confidence, for the SVM the label). *)
Variable cnn_model : option (list packet → gmap string behavior → option (list (nat * Q))).
Variable svm_model : option (list packet → gmap string behavior → option (list Z)).

Definition run_svm (now : Q) (pkts : list packet) (beh0 : gmap string behavior) : list alert :=
  match svm_model with
  | Some svm =>
      match svm pkts beh0 with
      | Some svm_preds => imap pair svm_preds ≫= svm_step now pkts
      | None => []
      end
  | None => []
  end.

(** [_run_ml_detection]; [now] is its own reading of the clock. *)
Definition _run_ml_detection (now : Q) (pkts : list packet) (beh : gmap string behavior)
  : list alert * gmap string behavior :=
  match pkts with
  | [] => ([], beh)
  | _ =>
      match cnn_model with
      | Some cnn =>
          match cnn pkts beh with
          | Some cnn_preds =>
              let '(alerts, beh') :=
                fold_left (cnn_step fl now pkts) (imap pair cnn_preds) ([], beh) in
              (alerts ++ run_svm now pkts beh, beh')
          | None => ([], beh)
          end
      | None => (run_svm now pkts beh, beh)
      end
  end.

Definition brute_force_check (current_time : Q) (src_ip dst_ip : string) (dst_port : Z)
    (pkts : list packet) : list alert :=
  if bool_decide (10 < length pkts)%nat && bool_decide (dst_port ∈ brute_force_ports)
  then [brute_force_alert current_time src_ip dst_ip dst_port] else [].

Definition large_transfer_check (current_time : Q) (src_ip dst_ip : string)
    (pkts : list packet) : list alert :=
  if negb (_is_internal_ip ip_is_private dst_ip)
     && bool_decide (100000 < Py.sumZ (get size_ 0%Z <$> pkts))%Z
  then [large_transfer_alert current_time src_ip dst_ip] else [].

Definition persistent_check (current_time : Q) (src_ip : string)
    (beh : gmap string behavior) : list alert :=
  match beh !! src_ip with
  | Some b =>
      if decide (0 < length (scores b))%nat
      then let avg_score := Py.mean fl (scores b) in
           if Py.gt fl avg_score anomaly_threshold
           then [persistent_alert fl current_time src_ip avg_score]
           else []
      else []
  | None => []
  end.

(** The body of [for flow_key, packets in flows.items()]. *)
Definition analyze_flow (current_time : Q) (beh : gmap string behavior)
    (item : string * list packet) : Py.result (list alert) :=
  match Py.split ":" item.1 with
  | [src_ip; dst_ip; dst_port] =>
      dst_port ← Py.int_of_str dst_port;
      Py.Ok (brute_force_check current_time src_ip dst_ip dst_port item.2
               ++ large_transfer_check current_time src_ip dst_ip item.2
               ++ persistent_check current_time src_ip beh)
  | _ => Py.Raise Py.ValueError
  end.

Fixpoint flows_loop (current_time : Q) (beh : gmap string behavior)
    (flows : list (string * list packet)) (alerts : list alert) : Py.result (list alert) :=
  match flows with
  | [] => Py.Ok alerts
  | item :: rest =>
      new ← analyze_flow current_time beh item;
      flows_loop current_time beh rest (alerts ++ new)
  end.

Definition _analyze_flows (network_data : list packet) (current_time : Q)
    (beh : gmap string behavior) : Py.result (list alert) :=
  flows_loop current_time beh (group_flows network_data) [].

(** [self.packet_history.extend(network_data)] and the trim to
    [history_limit]. *)
Definition extend_history (network_data history : list packet) : list packet :=
  let history := history ++ network_data in
  if decide (history_limit < length history)%nat
  then Py.lastn history_limit history else history.

(** The classifier pass, [if len(network_data) >= self.batch_size]: the
    features are extracted, then the classifiers run on them.  When
    [_extract_features] raises, nothing was written to [ip_behavior]. *)
Definition classify (network_data : list packet) (ml_time : Q)
    (beh : gmap string behavior) : Py.result (list alert) * gmap string behavior :=
  if decide (batch_size ≤ length network_data)%nat
  then match _extract_features beh network_data with
       | Py.Ok _ =>
           let '(ml_alerts, beh) := _run_ml_detection ml_time network_data beh in
           (Py.Ok ml_alerts, beh)
       | Py.Raise e => (Py.Raise e, beh)
       end
  else (Py.Ok [], beh).

(** [analyze]; [current_time] and [ml_time] are the clock readings of
    [analyze] and of [_run_ml_detection].  When [_extract_features] or
    [_analyze_flows] raises, [self] keeps what was written before and the
    clean-up is not reached. *)
Definition analyze (network_data : list packet) (current_time ml_time : Q) (st : state)
  : Py.result (list alert) * state :=
  match network_data with
  | [] => (Py.Ok [], st)
  | _ =>
      let history := extend_history network_data (packet_history st) in
      let beh := fold_left (observe current_time) network_data (ip_behavior st) in
      match classify network_data ml_time beh with
      | (Py.Ok ml_alerts, beh) =>
          match _analyze_flows network_data current_time beh with
          | Py.Ok flow_alerts =>
              (Py.Ok (ml_alerts ++ flow_alerts),
               {| packet_history := history;
                  ip_behavior := _cleanup_old_data (current_time - 3600) beh |})
          | Py.Raise e =>
              (Py.Raise e, {| packet_history := history; ip_behavior := beh |})
          end
      | (Py.Raise e, beh) =>
          (Py.Raise e, {| packet_history := history; ip_behavior := beh |})
      end
  end.

End WithModels.

End MLNetworkAnalyzer.

(** ** Vocabulary of the properties *)

Module NA := NetworkAnalyzer.
Module ML := MLNetworkAnalyzer.

(** [c in s] for a character. *)
Fixpoint contains (c : ascii) (s : string) : bool :=
  match s with
  | EmptyString => false
  | String a s' => Ascii.eqb a c || contains c s'
  end.

Fixpoint all_chars (P : ascii → bool) (s : string) : bool :=
  match s with
  | EmptyString => true
  | String a s' => P a && all_chars P s'
  end.

(** [sep.join(l)] *)
Fixpoint join (sep : ascii) (l : list string) : string :=
  match l with
  | [] => ""
  | [w] => w
  | w :: ws => w +:+ String sep (join sep ws)
  end.

Definition digit_or_dash (c : ascii) : bool :=
  (Ascii.eqb c "-" || ((48 <=? nat_of_ascii c) && (nat_of_ascii c <=? 57)))%nat.

(** Neither address field of the packet holds the separator of flow keys. *)
Definition sep_free (p : packet) : Prop :=
  contains ":" (get src "" p) = false ∧ contains ":" (get dst "" p) = false.

#[global] Instance sep_free_dec p : Decision (sep_free p).
Proof. unfold sep_free. apply _. Defined.

(** The source address that [_analyze_flows] reads back from a flow key. *)
Definition key_src (flow_key : string) : string := hd "" (Py.split ":" flow_key).

(** The three checks of [_analyze_flows] on the fields of a packet of the flow. *)
Definition flow_checks (fl : Py.floats) (ip_is_private : string → option bool)
    (current_time : Q) (beh : gmap string ML.behavior) (p : packet) (pkts : list packet)
  : list alert :=
  ML.brute_force_check current_time (get src "" p) (get dst "" p) (get dport 0%Z p) pkts
    ++ ML.large_transfer_check ip_is_private current_time (get src "" p) (get dst "" p) pkts
    ++ ML.persistent_check fl current_time (get src "" p) beh.

(** The alerts one flow adds when its iteration does not raise. *)
Definition flow_out (fl : Py.floats) (ip_is_private : string → option bool)
    (current_time : Q) (beh : gmap string ML.behavior) (item : string * list packet)
  : list alert :=
  match ML.analyze_flow fl ip_is_private current_time beh item with
  | Py.Ok new => new
  | Py.Raise _ => []
  end.

(** [ip_behavior] as [_analyze_flows] sees it during a call of [analyze]:
    after the tracking loop and the classifier pass, before the clean-up. *)
Definition detection_behavior (fl : Py.floats) cnn_model svm_model
    (network_data : list packet) (current_time ml_time : Q) (st : ML.state)
  : gmap string ML.behavior :=
  (ML.classify fl cnn_model svm_model network_data ml_time
     (fold_left (ML.observe current_time) network_data (ML.ip_behavior st))).2.

(** A sequence of calls of [MLNetworkAnalyzer.analyze] on one instance: each
    call is a batch with its two clock readings; a call that raises leaves the
    instance as it was when it raised. *)
Definition run_calls (fl : Py.floats) ip_is_private cnn_model svm_model
    (calls : list (list packet * Q * Q)) (st : ML.state) : ML.state :=
  fold_left (λ st c, (ML.analyze fl ip_is_private cnn_model svm_model c.1.1 c.1.2 c.2 st).2)
            calls st.

(** The state of [NetworkAnalyzer] after the tracking loop of [analyze]. *)
Definition tracked ip_is_private (network_data : list packet) (current_time : Q)
    (st : NA.state) : NA.state :=
  (fold_left (NA.track_packet ip_is_private current_time) network_data (st, [])).1.

(** The alerts that the watchlist-port check of the tracking loop raises on a
    batch: they depend on the batch alone. *)
Definition watchlist_alerts ip_is_private (current_time : Q) (network_data : list packet)
  : list alert :=
  network_data ≫= λ p,
    NA.check_attack_port ip_is_private current_time (get src "" p) (get dport 0%Z p).

(** A packet on which a true division of [_extract_features] overflows:
    its source port, destination port or size, or the packet count of its
    source. *)
Definition overflows (beh : gmap string ML.behavior) (p : packet) : bool :=
  Py.true_div_overflows (get sport 0%Z p) 65535
  || Py.true_div_overflows (get dport 0%Z p) 65535
  || Py.true_div_overflows (get size_ 0%Z p) 1500
  || match beh !! get src "0.0.0.0" p with
     | Some b => Py.true_div_overflows (Z.of_nat (ML.packets b)) 1000
     | None => false
     end.

(** An alert of the port-scan detector that names [ip]. *)
Definition port_scan_alert_for (ip : string) (a : alert) : Prop :=
  type a = "Potential Port Scan"
  ∧ ∃ n, description a = description (NA.port_scan_alert 0 ip n).

(** ** A float runtime for concrete inputs

    The operations of [Py.floats] carried out on the numbers themselves.
    This is what Python computes wherever nothing is rounded: the mean of
    confidences whose sum and quotient are floats again (a single
    confidence; equal confidences with few significant bits), the
    comparison of such a mean with [0.9] or [0.85] when it is not within
    [2^-24] of them, and the rendering of any float to two decimals, which
    Python rounds correctly from the number the float denotes, ties to
    even.  It is used on such inputs only. *)

Module Exact.

Definition sumQ (l : list Q) : Q := fold_left Qplus l 0%Q.

Definition mean (l : list Q) : Q := (sumQ l / inject_Z (Z.of_nat (length l)))%Q.

Definition round_half_even (q : Q) : Z :=
  let n := Qnum q in
  let d := Zpos (Qden q) in
  let fl := (n / d)%Z in
  let r := (2 * (n mod d))%Z in
  if (r <? d)%Z then fl
  else if (d <? r)%Z then (fl + 1)%Z
  else if Z.even fl then fl else (fl + 1)%Z.

Definition pad2 (z : Z) : string :=
  if (z <? 10)%Z then "0" +:+ Py.str_of_Z z else Py.str_of_Z z.

Definition format_2f (q : Q) : string :=
  let c := round_half_even (Qabs q * 100) in
  (if Qle_bool 0 q then "" else "-")
    +:+ Py.str_of_Z (c / 100) +:+ "." +:+ pad2 (c mod 100).

Definition floats : Py.floats :=
  {| Py.mean := mean; Py.gt := Py.Qgtb; Py.format_2f := format_2f |}.

End Exact.

(** ** Sample traffic *)

(** [{'src': s, 'dst': d, 'dport': port, 'size': sz}] *)
Definition pkt (s d : string) (port sz : Z) : packet :=
  mk_packet (Some s) (Some d) None (Some port) None (Some sz) None None None None.

(** The same event without its ['src'] key. *)
Definition pkt_no_src (d : string) (port sz : Z) : packet :=
  mk_packet None (Some d) None (Some port) None (Some sz) None None None None.

(** One host touching the ports [1 .. n] of another. *)
Definition scan_batch (n : nat) : list packet :=
  (λ port, pkt "198.51.100.7" "10.0.0.9" port 60) <$> seqZ 1 (Z.of_nat n).

(** Port-access records of ports [1 .. n] taken at time [t]. *)
Definition scan_accesses (t : Q) (n : nat) : list (Q * Z) :=
  (λ port, (t, port)) <$> seqZ 1 (Z.of_nat n).

(** Two hosts the classifier has scored before, once each, with the
    confidences 0.875 and 0.9375 (both floats); both means exceed 0.85. *)
Definition scored_state : ML.state :=
  {| ML.packet_history := [];
     ML.ip_behavior :=
       <["8.8.8.8" := {| ML.packets := 1; ML.last_seen := 99%Q; ML.scores := [0.875%Q] |}]>
         (<["9.9.9.9" := {| ML.packets := 1; ML.last_seen := 99%Q; ML.scores := [0.9375%Q] |}]> ∅) |}.

(** Two flows of one host: the same addresses, two destination ports. *)
Definition two_flows : list packet :=
  [pkt "8.8.8.8" "10.0.0.9" 80 60; pkt "8.8.8.8" "10.0.0.9" 443 60].

(** Eleven connection attempts to port 22 on one flow. *)
Definition ssh_attempts (s : string) : list packet :=
  replicate 11 (pkt s "10.0.0.9" 22 100).

(** ** [MLNetworkAnalyzer._extract_features]

    The feature rows of a call that returns ([ML._extract_features] says
    when), before [np.array] stores them as [float32]; the quotients are
    the exact rationals. *)

Module MLFeatures.

(** [__init__] *)
Definition feature_count : nat := 15.

(** [s.lower()] on ASCII letters. *)
Definition lower_char (c : ascii) : ascii :=
  let n := nat_of_ascii c in
  if (65 <=? n)%nat && (n <=? 90)%nat then ascii_of_nat (n + 32) else c.

Fixpoint lower (s : string) : string :=
  match s with
  | EmptyString => EmptyString
  | String c s' => String (lower_char c) (lower s')
  end.

Definition proto_num (proto : string) : Z :=
  if String.eqb (lower proto) "tcp" then 1
  else if String.eqb (lower proto) "udp" then 2
  else if String.eqb (lower proto) "icmp" then 3
  else 0.

(** [int(b)] as a feature. *)
Definition indicator (b : bool) : Q := if b then 1%Q else 0%Q.

(** [min(a, 1.0)] *)
Definition min_1 (a : Q) : Q := if Qle_bool a 1 then a else 1%Q.

Definition recent_packets (src_ip : string) (beh : gmap string ML.behavior) : Q :=
  match beh !! src_ip with
  | Some b => min_1 (inject_Z (Z.of_nat (ML.packets b)) / 1000)
  | None => 0%Q
  end.

(** The thirteen features of one packet, as appended in the source. *)
Definition packet_features (ip_is_private : string → option bool)
    (beh : gmap string ML.behavior) (p : packet) : list Q :=
  let src_ip := get src "0.0.0.0" p in
  let dst_ip := get dst "0.0.0.0" p in
  let src_port := get sport 0%Z p in
  let dst_port := get dport 0%Z p in
  let flags := get flags "" p in
  [ (inject_Z src_port / 65535)%Q;
    (inject_Z dst_port / 65535)%Q;
    (inject_Z (proto_num (get proto "" p)) / 3)%Q;
    (inject_Z (get size_ 0%Z p) / 1500)%Q;
    indicator (_is_internal_ip ip_is_private src_ip);
    indicator (_is_internal_ip ip_is_private dst_ip);
    indicator ((dst_port <? 1024)%Z || (src_port <? 1024)%Z);
    indicator ((49000 <? dst_port)%Z || (49000 <? src_port)%Z) ]
  ++ [ indicator (contains "S" flags); indicator (contains "A" flags);
       indicator (contains "F" flags); indicator (contains "R" flags) ]
  ++ [ recent_packets src_ip beh ].

(** The [while] loop that pads with zeros, then the slice [[:feature_count]]. *)
Definition fit (row : list Q) : list Q :=
  take feature_count (row ++ replicate (feature_count - length row) 0%Q).

Definition _extract_features (ip_is_private : string → option bool)
    (beh : gmap string ML.behavior) (pkts : list packet) : list (list Q) :=
  (λ p, fit (packet_features ip_is_private beh p)) <$> pkts.

End MLFeatures.

(** ** Vocabulary of the state transitions *)

(** A tracking list after new entries were appended to it: unchanged when
    there are none, created when it was absent. *)
Definition extended {A} (old : option (list A)) (new : list A) : option (list A) :=
  match new with
  | [] => old
  | _ => Some (default [] old ++ new)
  end.

(** The port-access records that a batch adds for [ip], in arrival order. *)
Definition batch_accesses (now : Q) (ip : string) (network_data : list packet)
  : list (Q * Z) :=
  (λ p, (now, get dport 0%Z p)) <$> filter (λ p, get src "" p = ip) network_data.

(** The packets that the tracking loop counts as deauthentication frames. *)
Definition deauth_frame (p : packet) : Prop :=
  get frame_type "" p = "management" ∧ get frame_subtype "" p = "deauth"
  ∧ get src_mac "" p ≠ "".

#[global] Instance deauth_frame_dec p : Decision (deauth_frame p).
Proof. unfold deauth_frame. apply _. Defined.

(** The deauthentication records that a batch adds for [mac]. *)
Definition batch_deauths (now : Q) (mac : string) (network_data : list packet) : list Q :=
  (λ _, now) <$> filter (λ p, deauth_frame p ∧ get src_mac "" p = mac) network_data.

(** What the tracking loop of [MLNetworkAnalyzer.analyze] makes of an entry
    when the batch holds [n] packets of its source. *)
Definition observed (now : Q) (n : nat) (old : option ML.behavior) : option ML.behavior :=
  match n with
  | O => old
  | _ =>
      let b := default {| ML.packets := 0; ML.last_seen := 0; ML.scores := [] |} old in
      Some {| ML.packets := ML.packets b + n; ML.last_seen := now;
              ML.scores := ML.scores b |}
  end.

(** The bounds that every score history keeps. *)
Definition scores_ok (beh : gmap string ML.behavior) : Prop :=
  map_Forall (λ _ b, (length (ML.scores b) ≤ 10)%nat
                     ∧ Forall (λ x, ML.probability_threshold < x)%Q (ML.scores b)) beh.

(** A prediction of the CNN that raises an alert. *)
Definition alerting (pred : nat * Q) : Prop :=
  (0 < pred.1)%nat ∧ (ML.probability_threshold < pred.2)%Q.

#[global] Instance alerting_dec pred : Decision (alerting pred).
Proof. unfold alerting. apply _. Defined.

(** The events on which the watchlist-port check of [NetworkAnalyzer] fires. *)
Definition watchlisted (ip_is_private : string → option bool) (p : packet) : Prop :=
  get dport 0%Z p ∈ [22; 3389; 445]%Z
  ∧ get src "" p ≠ ""
  ∧ ip_is_private (get src "" p) ≠ Some true.

#[global] Instance watchlisted_dec ip_is_private p : Decision (watchlisted ip_is_private p).
Proof. unfold watchlisted. apply _. Defined.

(** ** Strings: [split], [join] and the decimal writer *)

Section Strings.
Variable sep : ascii.

Lemma split_not_nil s : Py.split sep s ≠ [].
Proof.
  destruct s as [|c s]; simpl; [done|].
  destruct (Ascii.eqb c sep); [done|].
  by destruct (Py.split sep s).
Qed.

Lemma split_app_sep s t :
  Py.split sep (s +:+ String sep t) = Py.split sep s ++ Py.split sep t.
Proof.
  induction s as [|c s IH]; simpl.
  - by rewrite Ascii.eqb_refl.
  - destruct (Ascii.eqb c sep); [by rewrite IH|].
    rewrite IH. pose proof (split_not_nil s) as Hne.
    by destruct (Py.split sep s).
Qed.

Lemma split_app_sep_str s t :
  Py.split sep (s +:+ String sep "" +:+ t) = Py.split sep s ++ Py.split sep t.
Proof. apply split_app_sep. Qed.

Lemma split_sep_free s : contains sep s = false → Py.split sep s = [s].
Proof.
  induction s as [|c s IH]; simpl; [done|].
  intros [Hc Hs]%orb_false_elim. rewrite Hc, IH; done.
Qed.

Lemma split_contains s : contains sep s = true → (2 ≤ length (Py.split sep s))%nat.
Proof.
  induction s as [|c s IH]; simpl; [done|].
  destruct (Ascii.eqb c sep) eqn:Hc; simpl.
  - intros _. pose proof (split_not_nil s). destruct (Py.split sep s); simpl; [done|lia].
  - intros Hs. specialize (IH Hs). destruct (Py.split sep s); simpl in *; lia.
Qed.

Lemma join_split s : join sep (Py.split sep s) = s.
Proof.
  induction s as [|c s IH]; simpl; [done|].
  destruct (Ascii.eqb_spec c sep) as [->|Hne].
  - pose proof (split_not_nil s). destruct (Py.split sep s) eqn:E; [done|].
    simpl. by rewrite <- IH.
  - destruct (Py.split sep s) as [|w [|w' ws]] eqn:E; simpl in *.
    + by apply split_not_nil in E.
    + by rewrite IH.
    + by rewrite <- IH.
Qed.

Lemma split_inj s t : Py.split sep s = Py.split sep t → s = t.
Proof. intros H. by rewrite <- (join_split s), H, join_split. Qed.

Lemma contains_all_chars P s :
  all_chars P s = true → P sep = false → contains sep s = false.
Proof.
  induction s as [|c s IH]; simpl; [done|].
  intros [Hc Hs]%andb_prop Hsep. rewrite IH by done.
  destruct (Ascii.eqb_spec c sep) as [->|]; [congruence|done].
Qed.
End Strings.

Lemma all_chars_string_of_uint d :
  all_chars digit_or_dash (NilEmpty.string_of_uint d) = true.
Proof. induction d; simpl; auto. Qed.

Lemma all_chars_str_of_Z z : all_chars digit_or_dash (Py.str_of_Z z) = true.
Proof.
  unfold Py.str_of_Z, NilZero.string_of_int, NilZero.string_of_uint.
  destruct (Z.to_int z) as [d|d]; destruct d; simpl; auto using all_chars_string_of_uint.
Qed.

Lemma str_of_Z_sep_free c z : digit_or_dash c = false → contains c (Py.str_of_Z z) = false.
Proof. intros. eapply contains_all_chars; eauto using all_chars_str_of_Z. Qed.

Lemma int_of_str_of_Z z : Py.int_of_str (Py.str_of_Z z) = Py.Ok z.
Proof.
  unfold Py.int_of_str, Py.str_of_Z.
  rewrite NilZero.isi.
  - by rewrite DecimalZ.of_to.
  - destruct z; simpl; try done. intros [= H]. by apply DecimalPos.Unsigned.to_uint_nonnil in H.
  - destruct z; simpl; try done. intros [= H]. by apply DecimalPos.Unsigned.to_uint_nonnil in H.
Qed.

Lemma str_of_Z_inj z1 z2 : Py.str_of_Z z1 = Py.str_of_Z z2 → z1 = z2.
Proof.
  intros H. pose proof (int_of_str_of_Z z1) as H1. rewrite H, int_of_str_of_Z in H1.
  congruence.
Qed.

(** ** Flow keys and the flow dict *)

Lemma colon_not_digit : digit_or_dash ":" = false.
Proof. reflexivity. Qed.

Lemma split_flow_key p :
  sep_free p →
  Py.split ":" (ML.flow_key p)
  = [get src "" p; get dst "" p; Py.str_of_Z (get dport 0%Z p)].
Proof.
  intros [Hs Hd]. unfold ML.flow_key.
  rewrite !split_app_sep_str, !split_sep_free; auto using str_of_Z_sep_free, colon_not_digit.
Qed.

Lemma split_flow_key_length p :
  ¬ sep_free p → (4 ≤ length (Py.split ":" (ML.flow_key p)))%nat.
Proof.
  intros Hn. unfold ML.flow_key.
  rewrite !split_app_sep_str, !length_app.
  rewrite (split_sep_free _ (Py.str_of_Z _)) by auto using str_of_Z_sep_free, colon_not_digit.
  pose proof (split_not_nil ":" (get src "" p)) as H1.
  pose proof (split_not_nil ":" (get dst "" p)) as H2.
  pose proof (split_contains ":" (get src "" p)) as H3.
  pose proof (split_contains ":" (get dst "" p)) as H4.
  destruct (contains ":" (get src "" p)) eqn:Es.
  - specialize (H3 eq_refl). destruct (Py.split ":" (get dst "" p)); simpl in *; [done|lia].
  - destruct (contains ":" (get dst "" p)) eqn:Ed.
    + specialize (H4 eq_refl). destruct (Py.split ":" (get src "" p)); simpl in *; [done|lia].
    + destruct Hn. by split.
Qed.

Lemma list_to_map_flows_add key p flows :
  (list_to_map (ML.flows_add key p flows) : gmap string (list packet))
  = <[key := default [] ((list_to_map flows : gmap string (list packet)) !! key) ++ [p]]>
      (list_to_map flows).
Proof.
  induction flows as [|[k ps] rest IH]; simpl; [done|].
  destruct (decide (k = key)) as [->|Hne]; simpl.
  - by rewrite lookup_insert_eq, insert_insert_eq.
  - rewrite IH, lookup_insert_ne by done. by apply insert_insert_ne.
Qed.

Lemma fst_flows_add key p flows :
  (ML.flows_add key p flows).*1
  = if decide (key ∈ flows.*1) then flows.*1 else flows.*1 ++ [key].
Proof.
  induction flows as [|[k ps] rest IH]; [done|].
  cbn [ML.flows_add]. destruct (decide (k = key)) as [->|Hne]; rewrite !fmap_cons; cbn [fst].
  - rewrite decide_True by left. done.
  - rewrite IH. destruct (decide (key ∈ rest.*1)).
    + rewrite decide_True by (by right). done.
    + rewrite decide_False; [done|]. intros [?|?]%elem_of_cons; congruence.
Qed.

Lemma NoDup_flows_add key p flows :
  NoDup flows.*1 → NoDup (ML.flows_add key p flows).*1.
Proof.
  intros Hnd. rewrite fst_flows_add. case_decide; [done|].
  apply NoDup_app. repeat split; [done| |apply NoDup_singleton].
  intros x Hx ->%list_elem_of_singleton. done.
Qed.

Lemma group_flows_snoc l p :
  ML.group_flows (l ++ [p]) = ML.flows_add (ML.flow_key p) p (ML.group_flows l).
Proof. unfold ML.group_flows. by rewrite fold_left_app. Qed.

Lemma NoDup_group_flows l : NoDup (ML.group_flows l).*1.
Proof.
  induction l as [|p l IH] using rev_ind; [constructor|].
  rewrite group_flows_snoc. by apply NoDup_flows_add.
Qed.

(** The packets of a flow are the packets of the batch with its key, in
    arrival order; a key is in the dict when the batch has such a packet. *)
Lemma group_flows_lookup l k :
  (list_to_map (ML.group_flows l) : gmap string (list packet)) !! k
  = match filter (λ q, ML.flow_key q = k) l with
    | [] => None
    | ps => Some ps
    end.
Proof.
  induction l as [|p l IH] using rev_ind; [done|].
  rewrite group_flows_snoc, list_to_map_flows_add, filter_app, filter_cons, filter_nil.
  destruct (decide (ML.flow_key p = k)) as [<-|Hne].
  - rewrite lookup_insert_eq, IH.
    destruct (filter _ l) as [|q qs]; simpl; done.
  - rewrite lookup_insert_ne, IH, app_nil_r by done. done.
Qed.

Lemma group_flows_elem l k ps :
  (k, ps) ∈ ML.group_flows l ↔ ps ≠ [] ∧ ps = filter (λ q, ML.flow_key q = k) l.
Proof.
  rewrite (elem_of_list_to_map (M := gmap string)) by apply NoDup_group_flows.
  rewrite group_flows_lookup.
  destruct (filter _ l) as [|q qs]; split.
  - done.
  - intros [? ->]. done.
  - intros [= <-]. done.
  - intros [_ ->]. done.
Qed.

Lemma group_flows_key l item :
  item ∈ ML.group_flows l → ∃ p, p ∈ l ∧ item.1 = ML.flow_key p.
Proof.
  destruct item as [k ps]. intros [Hne Hps]%group_flows_elem.
  destruct ps as [|q qs]; [done|].
  assert (q ∈ filter (λ q, ML.flow_key q = k) l) as Hq by (rewrite <- Hps; left).
  apply list_elem_of_filter in Hq as [Hk Hq]. eauto.
Qed.

Lemma group_flows_covers l p :
  p ∈ l → ∃ ps, (ML.flow_key p, ps) ∈ ML.group_flows l ∧ p ∈ ps.
Proof.
  intros Hp. exists (filter (λ q, ML.flow_key q = ML.flow_key p) l).
  assert (p ∈ filter (λ q, ML.flow_key q = ML.flow_key p) l) as Hin
    by (by apply list_elem_of_filter).
  split; [|done]. apply group_flows_elem. split; [|done].
  intros E. rewrite E in Hin. by apply not_elem_of_nil in Hin.
Qed.

(** ** The flow loop *)

Section FlowLoop.
Variable fl : Py.floats.
Variable ip_is_private : string → option bool.
Variable current_time : Q.
Variable beh : gmap string ML.behavior.

Lemma analyze_flow_sep_free p pkts :
  sep_free p →
  ML.analyze_flow fl ip_is_private current_time beh (ML.flow_key p, pkts)
  = Py.Ok (flow_checks fl ip_is_private current_time beh p pkts).
Proof.
  intros Hp. unfold ML.analyze_flow. cbn [fst snd].
  rewrite split_flow_key by done. by rewrite int_of_str_of_Z.
Qed.

Lemma analyze_flow_raises p pkts :
  ¬ sep_free p →
  ML.analyze_flow fl ip_is_private current_time beh (ML.flow_key p, pkts)
  = Py.Raise Py.ValueError.
Proof.
  intros Hp%split_flow_key_length. unfold ML.analyze_flow. cbn [fst].
  destruct (Py.split ":" (ML.flow_key p)) as [|a [|b [|c [|d l]]]]; simpl in *; try done; lia.
Qed.

Lemma flows_loop_ok flows alerts :
  (∀ item, item ∈ flows →
     ∃ new, ML.analyze_flow fl ip_is_private current_time beh item = Py.Ok new) →
  ML.flows_loop fl ip_is_private current_time beh flows alerts
  = Py.Ok (alerts ++ (flows ≫= flow_out fl ip_is_private current_time beh)).
Proof.
  revert alerts. induction flows as [|item rest IH]; intros alerts Hok; simpl.
  - by rewrite app_nil_r.
  - destruct (Hok item) as [new Hnew]; [left|].
    unfold flow_out at 1. rewrite Hnew. simpl.
    rewrite IH by (intros; apply Hok; by right). by rewrite <- app_assoc.
Qed.

(** [int] and the unpacking of [split] are all that can raise in the body
    of the loop. *)
Lemma analyze_flow_exn item e :
  ML.analyze_flow fl ip_is_private current_time beh item = Py.Raise e → e = Py.ValueError.
Proof.
  unfold ML.analyze_flow.
  destruct (Py.split ":" item.1) as [|a [|b [|c [|d l]]]]; try congruence.
  unfold Py.int_of_str. destruct (NilZero.int_of_string c); simpl; congruence.
Qed.

Lemma flows_loop_exn flows alerts e :
  ML.flows_loop fl ip_is_private current_time beh flows alerts = Py.Raise e →
  e = Py.ValueError.
Proof.
  revert alerts. induction flows as [|item rest IH]; intros alerts; simpl; [done|].
  destruct (ML.analyze_flow _ _ _ _ item) as [new|e'] eqn:E; simpl.
  - apply IH.
  - intros [= <-]. by apply analyze_flow_exn in E.
Qed.

Lemma flows_loop_raises flows alerts item :
  item ∈ flows →
  ML.analyze_flow fl ip_is_private current_time beh item = Py.Raise Py.ValueError →
  ML.flows_loop fl ip_is_private current_time beh flows alerts = Py.Raise Py.ValueError.
Proof.
  revert alerts. induction flows as [|item' rest IH]; intros alerts Hin Hr.
  - by apply not_elem_of_nil in Hin.
  - simpl. apply elem_of_cons in Hin as [<-|Hin].
    + by rewrite Hr.
    + destruct (ML.analyze_flow _ _ _ _ item') as [new|e] eqn:E; simpl; [by apply IH|].
      by apply analyze_flow_exn in E as ->.
Qed.

(** On a batch without the separator in its addresses the loop completes,
    and every flow contributes its three checks. *)
Lemma analyze_flows_sep_free network_data :
  Forall sep_free network_data →
  ML._analyze_flows fl ip_is_private network_data current_time beh
  = Py.Ok (ML.group_flows network_data ≫= flow_out fl ip_is_private current_time beh).
Proof.
  intros Hall. unfold ML._analyze_flows. rewrite flows_loop_ok; [done|].
  intros [k pkts] (p & Hp & Hk)%group_flows_key. cbn [fst] in Hk. subst k.
  rewrite Forall_forall in Hall. rewrite analyze_flow_sep_free by auto. eauto.
Qed.

(** One packet with the separator in [src] or [dst] makes the loop raise. *)
Lemma analyze_flows_raises network_data p :
  p ∈ network_data → ¬ sep_free p →
  ML._analyze_flows fl ip_is_private network_data current_time beh
  = Py.Raise Py.ValueError.
Proof.
  intros Hin Hp. destruct (group_flows_covers _ _ Hin) as (pkts & Hitem & _).
  unfold ML._analyze_flows. eapply flows_loop_raises; [exact Hitem|].
  by apply analyze_flow_raises.
Qed.

Lemma flow_out_sep_free p pkts :
  sep_free p →
  flow_out fl ip_is_private current_time beh (ML.flow_key p, pkts)
  = flow_checks fl ip_is_private current_time beh p pkts.
Proof. intros Hp. unfold flow_out. by rewrite analyze_flow_sep_free. Qed.

Lemma key_src_flow_key p : sep_free p → key_src (ML.flow_key p) = get src "" p.
Proof. intros Hp. unfold key_src. by rewrite split_flow_key. Qed.
End FlowLoop.

(** ** [NetworkAnalyzer]: the tracking loop and the detectors *)

Lemma suspicious_ports_lookup port name :
  NA.suspicious_ports !! port = Some name
  ↔ (port, name) ∈ [(22%Z, "SSH"); (3389%Z, "RDP"); (445%Z, "SMB")].
Proof.
  unfold NA.suspicious_ports. cbn [list_to_map foldr uncurry fst snd].
  rewrite !lookup_insert, lookup_empty, !elem_of_cons, elem_of_nil.
  repeat case_decide; subst; split; intros Hx;
    repeat (destruct Hx as [Hx|Hx]); simplify_eq; auto; done.
Qed.

Section Tracking.
Variable ip_is_private : string → option bool.
Variable current_time : Q.

Lemma track_packet_alerts st alerts p :
  (NA.track_packet ip_is_private current_time (st, alerts) p).2
  = alerts ++ NA.check_attack_port ip_is_private current_time
                (get src "" p) (get dport 0%Z p).
Proof. done. Qed.

Lemma track_packet_state st alerts alerts' p :
  (NA.track_packet ip_is_private current_time (st, alerts) p).1
  = (NA.track_packet ip_is_private current_time (st, alerts') p).1.
Proof. done. Qed.

Lemma track_packet_pair st alerts p :
  NA.track_packet ip_is_private current_time (st, alerts) p
  = ((NA.track_packet ip_is_private current_time (st, []) p).1,
     alerts ++ NA.check_attack_port ip_is_private current_time
                 (get src "" p) (get dport 0%Z p)).
Proof. done. Qed.

Lemma fold_track_packet network_data st alerts :
  fold_left (NA.track_packet ip_is_private current_time) network_data (st, alerts)
  = (tracked ip_is_private network_data current_time st,
     alerts ++ watchlist_alerts ip_is_private current_time network_data).
Proof.
  unfold tracked, watchlist_alerts.
  revert st alerts. induction network_data as [|p l IH]; intros st alerts.
  - simpl. by rewrite app_nil_r.
  - cbn [fold_left]. rewrite bind_cons.
    rewrite (track_packet_pair st alerts), (track_packet_pair st []).
    rewrite IH. rewrite (IH _ ([] ++ _)). cbn [fst]. by rewrite <- app_assoc.
Qed.

(** The alert list of [analyze] on a batch that is not empty: the watchlist
    alerts of the loop, then the port scans, then the deauthentications. *)
Lemma analyze_alerts network_data st :
  network_data ≠ [] →
  (NA.analyze ip_is_private network_data current_time st).1
  = watchlist_alerts ip_is_private current_time network_data
      ++ NA._detect_port_scans current_time (tracked ip_is_private network_data current_time st)
      ++ NA._detect_deauth_attacks current_time
           (tracked ip_is_private network_data current_time st).
Proof.
  intros Hne. unfold NA.analyze. destruct network_data as [|p l]; [done|].
  rewrite fold_track_packet. cbn [fst app]. by rewrite <- app_assoc.
Qed.

Lemma watchlist_alert_type a network_data :
  a ∈ watchlist_alerts ip_is_private current_time network_data →
  type a ∈ ["SSH Access Attempt"; "RDP Access Attempt"; "SMB Access Attempt"].
Proof.
  unfold watchlist_alerts. intros (p & Ha & _)%list_elem_of_bind.
  unfold NA.check_attack_port in Ha.
  destruct (NA.suspicious_ports !! _) as [name|] eqn:E; [|by apply not_elem_of_nil in Ha].
  destruct (_ && _); [|by apply not_elem_of_nil in Ha].
  apply list_elem_of_singleton in Ha as ->.
  apply suspicious_ports_lookup in E.
  rewrite !elem_of_cons, elem_of_nil in E.
  destruct E as [E|[E|[E|[]]]]; simplify_eq; cbn; rewrite !elem_of_cons; auto.
Qed.

Lemma deauth_alert_type a st :
  a ∈ NA._detect_deauth_attacks current_time st →
  type a = "WiFi Deauthentication Attack".
Proof.
  unfold NA._detect_deauth_attacks. intros (item & Ha & _)%list_elem_of_bind.
  unfold NA.deauth_of_mac in Ha. case_decide; [|by apply not_elem_of_nil in Ha].
  by apply list_elem_of_singleton in Ha as ->.
Qed.
End Tracking.

(** ** Port scans *)

Lemma port_scan_description t ip n :
  description (NA.port_scan_alert t ip n)
  = "IP" +:+ String " " (ip +:+ String " " ("accessed" +:+ String " "
      (Py.str_of_nat n +:+ String " " "different ports in 5 seconds"))).
Proof. reflexivity. Qed.

(** The description of a port-scan alert determines the address it names. *)
Lemma port_scan_description_inj t t' ip ip' n n' :
  description (NA.port_scan_alert t ip n) = description (NA.port_scan_alert t' ip' n') →
  ip = ip'.
Proof.
  rewrite !port_scan_description. intros H%(f_equal (Py.split " ")).
  rewrite !split_app_sep in H.
  rewrite !(split_sep_free " " (Py.str_of_nat _)) in H
    by (apply str_of_Z_sep_free; reflexivity).
  apply app_inv_head in H. apply app_inj_2 in H as [H _]; [|done].
  by apply split_inj in H.
Qed.

Lemma scan_of_ip_elem now item a :
  a ∈ NA.scan_of_ip now item → ∃ n, a = NA.port_scan_alert now item.1 n.
Proof.
  unfold NA.scan_of_ip. case_decide; [|by intros ?%not_elem_of_nil].
  intros ->%list_elem_of_singleton. eauto.
Qed.

Lemma detect_port_scans_split now st ip accesses :
  NA.ip_port_access st !! ip = Some accesses →
  ∃ l1 l2,
    NA._detect_port_scans now st = l1 ++ NA.scan_of_ip now (ip, accesses) ++ l2
    ∧ ∀ a, a ∈ l1 ++ l2 → ¬ port_scan_alert_for ip a.
Proof.
  intros Hip%elem_of_map_to_list. unfold NA._detect_port_scans.
  pose proof (NoDup_fst_map_to_list (NA.ip_port_access st)) as Hnd.
  apply list_elem_of_split in Hip as (k1 & k2 & Hk). rewrite Hk in Hnd |- *.
  rewrite fmap_app, fmap_cons in Hnd. cbn [fst] in Hnd.
  apply NoDup_app in Hnd as (_ & Hk1 & [Hk2 _]%NoDup_cons).
  exists (k1 ≫= NA.scan_of_ip now), (k2 ≫= NA.scan_of_ip now).
  split; [by rewrite bind_app, bind_cons|].
  intros a Ha [_ [n Hd]].
  assert (∃ item, a ∈ NA.scan_of_ip now item ∧ item.1 ≠ ip) as (item & Hitem & Hne).
  { apply elem_of_app in Ha as [(item & ? & Hin)%list_elem_of_bind
                               |(item & ? & Hin)%list_elem_of_bind];
      exists item; (split; [done|]); intros <-.
    - apply (Hk1 item.1); [by apply list_elem_of_fmap_2|left].
    - apply Hk2. by apply list_elem_of_fmap_2. }
  apply scan_of_ip_elem in Hitem as [m ->].
  by apply port_scan_description_inj in Hd.
Qed.

(** C1 (as amended).  On a batch that is not empty, for every source IP
    tracked once the batch is recorded: when the port-access records newer
    than [now - 5] hold at least 10 distinct ports, the alerts of [analyze]
    contain exactly one port-scan alert naming that IP, of high severity, with
    the number of distinct ports and the 5 seconds in its description; when
    they hold 9 or fewer, [analyze] returns no port-scan alert naming that IP. *)
Theorem port_scan_alert_per_ip ip_is_private network_data now st ip accesses :
  network_data ≠ [] →
  NA.ip_port_access (tracked ip_is_private network_data now st) !! ip = Some accesses →
  let n := size (NA.unique_ports now accesses) in
  let out := (NA.analyze ip_is_private network_data now st).1 in
  ((10 ≤ n)%nat →
     (∃ l1 l2, out = l1 ++ NA.port_scan_alert now ip n :: l2
               ∧ ∀ a, a ∈ l1 ++ l2 → ¬ port_scan_alert_for ip a)
     ∧ port_scan_alert_for ip (NA.port_scan_alert now ip n)
     ∧ alert_severity (NA.port_scan_alert now ip n) = high
     ∧ description (NA.port_scan_alert now ip n)
       = "IP " +:+ ip +:+ " accessed " +:+ Py.str_of_nat n
           +:+ " different ports in 5 seconds")
  ∧ ((n ≤ 9)%nat → ∀ a, a ∈ out → ¬ port_scan_alert_for ip a).
Proof.
  intros Hne Hip n out. subst out. rewrite analyze_alerts by done.
  destruct (detect_port_scans_split now _ _ _ Hip) as (l1 & l2 & -> & Hrest).
  set (w := watchlist_alerts ip_is_private now network_data).
  set (d := NA._detect_deauth_attacks now _).
  assert (∀ a, a ∈ w → ¬ port_scan_alert_for ip a) as Hw.
  { intros a Ha%watchlist_alert_type [Ht _]. rewrite Ht in Ha.
    rewrite !elem_of_cons, elem_of_nil in Ha.
    destruct Ha as [Ha|[Ha|[Ha|[]]]]; discriminate. }
  assert (∀ a, a ∈ d → ¬ port_scan_alert_for ip a) as Hd.
  { intros a Ha%deauth_alert_type [Ht _]. congruence. }
  unfold NA.scan_of_ip. cbn [fst snd]. fold n. split.
  - intros Hn. rewrite decide_True by done. repeat split.
    + exists (w ++ l1), (l2 ++ d). split; [by rewrite <- !app_assoc|].
      intros a Ha. rewrite !elem_of_app in Ha.
      destruct Ha as [[?|?]|[?|?]]; [by apply Hw|apply Hrest|apply Hrest|by apply Hd];
        rewrite elem_of_app; auto.
    + by exists n.
  - intros Hn. rewrite decide_False by (unfold NA.port_scan_threshold; lia).
    intros a Ha. change ([] ++ l2) with l2 in Ha. rewrite !elem_of_app in Ha.
    destruct Ha as [?|[[?|?]|?]]; [by apply Hw|apply Hrest|apply Hrest|by apply Hd];
      rewrite elem_of_app; auto.
Qed.

Lemma port_scan_alert_per_ip_witness :
  scan_batch 11 ≠ []
  ∧ NA.ip_port_access (tracked Ipv4.ip_is_private (scan_batch 11) 100 NA.init)
      !! "198.51.100.7" = Some (scan_accesses 100 11)
  ∧ (let n := size (NA.unique_ports 100 (scan_accesses 100 11)) in
     let out := (NA.analyze Ipv4.ip_is_private (scan_batch 11) 100 NA.init).1 in
     ((10 ≤ n)%nat →
        (∃ l1 l2, out = l1 ++ NA.port_scan_alert 100 "198.51.100.7" n :: l2
                  ∧ ∀ a, a ∈ l1 ++ l2 → ¬ port_scan_alert_for "198.51.100.7" a)
        ∧ port_scan_alert_for "198.51.100.7" (NA.port_scan_alert 100 "198.51.100.7" n)
        ∧ alert_severity (NA.port_scan_alert 100 "198.51.100.7" n) = high
        ∧ description (NA.port_scan_alert 100 "198.51.100.7" n)
          = "IP " +:+ "198.51.100.7" +:+ " accessed " +:+ Py.str_of_nat n
              +:+ " different ports in 5 seconds")
     ∧ ((n ≤ 9)%nat → ∀ a, a ∈ out → ¬ port_scan_alert_for "198.51.100.7" a)).
Proof.
  split; [discriminate|]. split; [vm_compute; reflexivity|].
  apply (port_scan_alert_per_ip Ipv4.ip_is_private (scan_batch 11) 100 NA.init
           "198.51.100.7" (scan_accesses 100 11)).
  - discriminate.
  - vm_compute; reflexivity.
Defined.

(** C1 as stated fails on an empty batch: one second after a scan of 10 ports
    was recorded, the records newer than [now - 5] still hold 10 distinct
    ports, and [analyze] on an empty batch returns no alert. *)
Lemma port_scan_empty_batch_counterexample :
  let st := (NA.analyze Ipv4.ip_is_private (scan_batch 10) 100 NA.init).2 in
  NA.ip_port_access st !! "198.51.100.7" = Some (scan_accesses 100 10)
  ∧ size (NA.unique_ports 101 (scan_accesses 100 10)) = 10%nat
  ∧ (NA.analyze Ipv4.ip_is_private [] 101 st).1 = [].
Proof. vm_compute. repeat split; reflexivity. Qed.

(** ** Watchlist ports *)

(** C5 (as amended).  For every event of the batch whose destination port is
    22, 3389 or 445 and whose source address is a non-empty string that is not
    private (an address that does not parse counts as not private), [analyze]
    returns a medium-severity access-attempt alert for that event; the alert
    is decided by the event alone, whatever the tracked state. *)
Theorem watchlist_alert_per_event ip_is_private network_data now st p name :
  p ∈ network_data →
  (get dport 0%Z p, name) ∈ [(22%Z, "SSH"); (3389%Z, "RDP"); (445%Z, "SMB")] →
  get src "" p ≠ "" →
  ip_is_private (get src "" p) ≠ Some true →
  let a := NA.access_attempt_alert now (get src "" p) name (get dport 0%Z p) in
  NA.check_attack_port ip_is_private now (get src "" p) (get dport 0%Z p) = [a]
  ∧ alert_severity a = medium
  ∧ a ∈ (NA.analyze ip_is_private network_data now st).1
  ∧ ∃ rest, (NA.analyze ip_is_private network_data now st).1
            = watchlist_alerts ip_is_private now network_data ++ rest.
Proof.
  intros Hin Hport%suspicious_ports_lookup Hsrc Hpriv a.
  assert (NA.check_attack_port ip_is_private now (get src "" p) (get dport 0%Z p) = [a])
    as Hcheck.
  { unfold NA.check_attack_port. rewrite Hport.
    assert (Py.truthy (get src "" p) = true) as -> by (by destruct (get src "" p)).
    unfold _is_internal_ip. destruct (ip_is_private (get src "" p)) as [[]|]; done. }
  assert (network_data ≠ []) as Hne by (intros ->; by apply not_elem_of_nil in Hin).
  rewrite analyze_alerts by done. repeat split; [done| |eauto].
  apply elem_of_app. left. apply list_elem_of_bind. exists p. split; [|done].
  rewrite Hcheck. left.
Qed.

Lemma watchlist_alert_per_event_witness :
  pkt "8.8.8.8" "10.0.0.9" 22 60 ∈ [pkt "8.8.8.8" "10.0.0.9" 22 60]
  ∧ (22%Z, "SSH") ∈ [(22%Z, "SSH"); (3389%Z, "RDP"); (445%Z, "SMB")]
  ∧ "8.8.8.8" ≠ ""
  ∧ Ipv4.ip_is_private "8.8.8.8" ≠ Some true
  ∧ NA.access_attempt_alert 100 "8.8.8.8" "SSH" 22
      ∈ (NA.analyze Ipv4.ip_is_private [pkt "8.8.8.8" "10.0.0.9" 22 60] 100 NA.init).1.
Proof.
  assert (pkt "8.8.8.8" "10.0.0.9" 22 60 ∈ [pkt "8.8.8.8" "10.0.0.9" 22 60]) as H1 by left.
  assert ((22%Z, "SSH") ∈ [(22%Z, "SSH"); (3389%Z, "RDP"); (445%Z, "SMB")]) as H2 by left.
  assert ("8.8.8.8" ≠ "") as H3 by discriminate.
  assert (Ipv4.ip_is_private "8.8.8.8" ≠ Some true) as H4 by (vm_compute; discriminate).
  repeat split; try assumption.
  apply (watchlist_alert_per_event Ipv4.ip_is_private _ 100 NA.init _ "SSH" H1 H2 H3 H4).
Defined.

(** C5 as stated fails for the empty source address: it does not parse, so it
    is not private, yet an event to port 22 without ['src'] raises no alert. *)
Lemma watchlist_empty_src_counterexample :
  let e := pkt_no_src "10.0.0.9" 22 60 in
  get dport 0%Z e = 22%Z
  ∧ get src "" e = ""
  ∧ Ipv4.ip_is_private (get src "" e) = None
  ∧ _is_internal_ip Ipv4.ip_is_private (get src "" e) = false
  ∧ (NA.analyze Ipv4.ip_is_private [e] 100 NA.init).1 = [].
Proof. vm_compute. repeat split; reflexivity. Qed.

(** ** [MLNetworkAnalyzer.analyze] *)

Section MLAnalyze.
Variable fl : Py.floats.
Variable ip_is_private : string → option bool.
Variable cnn_model : option (list packet → gmap string ML.behavior → option (list (nat * Q))).
Variable svm_model : option (list packet → gmap string ML.behavior → option (list Z)).

Lemma true_div_exn a b e : Py.true_div a b = Py.Raise e → e = Py.OverflowError.
Proof. unfold Py.true_div. destruct (Py.true_div_overflows a b); congruence. Qed.

Lemma true_div_ok a b : Py.true_div a b = Py.Ok () ↔ Py.true_div_overflows a b = false.
Proof. unfold Py.true_div. by destruct (Py.true_div_overflows a b). Qed.

Lemma feature_divisions_ok beh p :
  ML.feature_divisions beh p = Py.Ok () ↔ overflows beh p = false.
Proof.
  unfold ML.feature_divisions, overflows, Py.true_div.
  destruct (Py.true_div_overflows (get sport _ p) _); [done|].
  destruct (Py.true_div_overflows (get dport _ p) _); [done|].
  destruct (Py.true_div_overflows (get size_ _ p) _); [done|].
  cbn [mbind Py.result_bind orb]. destruct (beh !! _) as [b|]; [|done].
  by destruct (Py.true_div_overflows _ _).
Qed.



Lemma extract_features_ok beh pkts :
  ML._extract_features beh pkts = Py.Ok ()
  ↔ Forall (λ p, overflows beh p = false) pkts.
Proof.
  induction pkts as [|p l IH]; simpl.
  - split; [by constructor|done].
  - rewrite Forall_cons, <- IH, <- feature_divisions_ok.
    destruct (ML.feature_divisions beh p) as [[]|e]; simpl; [tauto|].
    split; [done|]. by intros [? _].
Qed.





Lemma analyze_sep_free network_data now ml_time st ml_alerts :
  network_data ≠ [] → Forall sep_free network_data →
  (ML.classify fl cnn_model svm_model network_data ml_time
     (fold_left (ML.observe now) network_data (ML.ip_behavior st))).1 = Py.Ok ml_alerts →
  ML.analyze fl ip_is_private cnn_model svm_model network_data now ml_time st
  = (Py.Ok (ml_alerts
            ++ (ML.group_flows network_data
                  ≫= flow_out fl ip_is_private now
                        (detection_behavior fl cnn_model svm_model network_data now ml_time st))),
     {| ML.packet_history := ML.extend_history network_data (ML.packet_history st);
        ML.ip_behavior :=
          ML._cleanup_old_data (now - 3600)
            (detection_behavior fl cnn_model svm_model network_data now ml_time st) |}).
Proof.
  intros Hne Hall. unfold ML.analyze, detection_behavior.
  destruct network_data as [|p l]; [done|].
  destruct (ML.classify fl cnn_model svm_model _ _ _) as [r beh]. cbn [fst snd].
  intros ->. by rewrite analyze_flows_sep_free.
Qed.

Lemma analyze_raises network_data now ml_time st p ml_alerts :
  p ∈ network_data → ¬ sep_free p →
  (ML.classify fl cnn_model svm_model network_data ml_time
     (fold_left (ML.observe now) network_data (ML.ip_behavior st))).1 = Py.Ok ml_alerts →
  ML.analyze fl ip_is_private cnn_model svm_model network_data now ml_time st
  = (Py.Raise Py.ValueError,
     {| ML.packet_history := ML.extend_history network_data (ML.packet_history st);
        ML.ip_behavior := detection_behavior fl cnn_model svm_model network_data now ml_time st |}).
Proof.
  intros Hin Hp. unfold ML.analyze, detection_behavior.
  destruct network_data as [|q l]; [by apply not_elem_of_nil in Hin|].
  destruct (ML.classify fl cnn_model svm_model _ _ _) as [r beh]. cbn [fst snd].
  intros ->. by rewrite (analyze_flows_raises _ _ _ _ _ p).
Qed.

(** A feature extraction that raises ends the call. *)
Lemma analyze_classify_raises network_data now ml_time st e :
  network_data ≠ [] →
  (ML.classify fl cnn_model svm_model network_data ml_time
     (fold_left (ML.observe now) network_data (ML.ip_behavior st))).1 = Py.Raise e →
  ML.analyze fl ip_is_private cnn_model svm_model network_data now ml_time st
  = (Py.Raise e,
     {| ML.packet_history := ML.extend_history network_data (ML.packet_history st);
        ML.ip_behavior := detection_behavior fl cnn_model svm_model network_data now ml_time st |}).
Proof.
  intros Hne. unfold ML.analyze, detection_behavior.
  destruct network_data as [|q l]; [done|].
  destruct (ML.classify fl cnn_model svm_model _ _ _) as [r beh]. cbn [fst snd].
  by intros ->.
Qed.

(** What a call that returns has done. *)
Lemma analyze_ok_inv network_data now ml_time st alerts :
  network_data ≠ [] →
  (ML.analyze fl ip_is_private cnn_model svm_model network_data now ml_time st).1
  = Py.Ok alerts →
  Forall sep_free network_data
  ∧ ∃ ml_alerts,
      (ML.classify fl cnn_model svm_model network_data ml_time
         (fold_left (ML.observe now) network_data (ML.ip_behavior st))).1 = Py.Ok ml_alerts
      ∧ ML.analyze fl ip_is_private cnn_model svm_model network_data now ml_time st
        = (Py.Ok alerts,
           {| ML.packet_history := ML.extend_history network_data (ML.packet_history st);
              ML.ip_behavior :=
                ML._cleanup_old_data (now - 3600)
                  (detection_behavior fl cnn_model svm_model network_data now ml_time st) |})
      ∧ alerts
        = ml_alerts
          ++ (ML.group_flows network_data
                ≫= flow_out fl ip_is_private now
                      (detection_behavior fl cnn_model svm_model network_data now ml_time st)).
Proof.
  intros Hne Hok.
  destruct (ML.classify fl cnn_model svm_model network_data ml_time
              (fold_left (ML.observe now) network_data (ML.ip_behavior st))).1
    as [ml_alerts|e] eqn:Hc.
  - destruct (decide (Forall sep_free network_data)) as [Hall|Hnot].
    + rewrite (analyze_sep_free _ _ _ _ _ Hne Hall Hc) in Hok |- *.
      cbn [fst] in Hok. injection Hok as <-. eauto.
    + apply not_Forall_Exists in Hnot; [|apply _].
      apply Exists_exists in Hnot as (p & Hin & Hp).
      rewrite (analyze_raises _ _ _ _ _ _ Hin Hp Hc) in Hok. done.
  - rewrite (analyze_classify_raises _ _ _ _ _ Hne Hc) in Hok. done.
Qed.

Lemma analyze_history network_data now ml_time st :
  ML.packet_history (ML.analyze fl ip_is_private cnn_model svm_model network_data now ml_time st).2
  = match network_data with
    | [] => ML.packet_history st
    | _ => ML.extend_history network_data (ML.packet_history st)
    end.
Proof.
  unfold ML.analyze. destruct network_data as [|p l]; [done|].
  destruct (ML.classify fl cnn_model svm_model _ _ _) as [[ml_alerts|e] beh]; [|done].
  by destruct (ML._analyze_flows _ _ _ _ _).
Qed.

(** Every alert of the classifier pass has a type that starts with
    ["ML Detected: "]. *)
Lemma cnn_step_types now pkts acc ipred :
  Forall (λ a, ∃ t, type a = "ML Detected: " +:+ t) acc.1 →
  Forall (λ a, ∃ t, type a = "ML Detected: " +:+ t) (ML.cnn_step fl now pkts acc ipred).1.
Proof.
  destruct acc as [alerts beh], ipred as [i [idx conf]]. cbn [fst]. intros Hacc.
  unfold ML.cnn_step. destruct (_ && _); cbn [fst]; [|done].
  apply Forall_app. split; [done|]. apply Forall_singleton. eauto.
Qed.

Lemma fold_cnn_step_types now pkts preds acc :
  Forall (λ a, ∃ t, type a = "ML Detected: " +:+ t) acc.1 →
  Forall (λ a, ∃ t, type a = "ML Detected: " +:+ t)
         (fold_left (ML.cnn_step fl now pkts) preds acc).1.
Proof.
  revert acc. induction preds as [|ipred preds IH]; intros acc Hacc; [done|].
  cbn [fold_left]. by apply IH, cnn_step_types.
Qed.

Lemma run_svm_types now pkts beh :
  Forall (λ a, ∃ t, type a = "ML Detected: " +:+ t) (ML.run_svm svm_model now pkts beh).
Proof.
  unfold ML.run_svm. destruct svm_model as [svm|]; [|done].
  destruct (svm pkts beh) as [preds|]; [|done].
  apply Forall_forall. intros a (ipred & Ha & _)%list_elem_of_bind.
  unfold ML.svm_step in Ha. case_decide; [|by apply not_elem_of_nil in Ha].
  apply list_elem_of_singleton in Ha as ->. eauto.
Qed.

Lemma run_ml_detection_types pkts ml_time beh :
  Forall (λ a, ∃ t, type a = "ML Detected: " +:+ t)
         (ML._run_ml_detection fl cnn_model svm_model ml_time pkts beh).1.
Proof.
  unfold ML._run_ml_detection. destruct pkts as [|p l]; [done|].
  destruct cnn_model as [cnn|]; [|apply run_svm_types].
  destruct (cnn (p :: l) beh) as [preds|]; [|done].
  pose proof (fold_cnn_step_types ml_time (p :: l) (imap pair preds) ([], beh)) as Hf.
  destruct (fold_left _ _ _) as [alerts beh']. cbn [fst] in *.
  apply Forall_app. split; [by apply Hf|apply run_svm_types].
Qed.

(** What the classifier pass does when it returns. *)
Lemma classify_ok_inv network_data ml_time beh ml_alerts :
  (ML.classify fl cnn_model svm_model network_data ml_time beh).1 = Py.Ok ml_alerts →
  ML.classify fl cnn_model svm_model network_data ml_time beh
  = if decide (ML.batch_size ≤ length network_data)%nat
    then ((Py.Ok (ML._run_ml_detection fl cnn_model svm_model ml_time network_data beh).1),
          (ML._run_ml_detection fl cnn_model svm_model ml_time network_data beh).2)
    else (Py.Ok [], beh).
Proof.
  unfold ML.classify. case_decide; [|done].
  destruct (ML._extract_features beh network_data); [|done].
  by destruct (ML._run_ml_detection _ _ _ _ _ _).
Qed.

Lemma classify_types network_data ml_time beh ml_alerts :
  (ML.classify fl cnn_model svm_model network_data ml_time beh).1 = Py.Ok ml_alerts →
  Forall (λ a, ∃ t, type a = "ML Detected: " +:+ t) ml_alerts.
Proof.
  intros Hc. rewrite (classify_ok_inv _ _ _ _ Hc) in Hc. case_decide.
  - cbn [fst] in Hc. injection Hc as <-. apply run_ml_detection_types.
  - cbn [fst] in Hc. injection Hc as <-. done.
Qed.
End MLAnalyze.

(** ** Flow detectors *)

Lemma Qgtb_true a b : Py.Qgtb a b = true ↔ (b < a)%Q.
Proof.
  unfold Py.Qgtb. rewrite negb_true_iff, <- not_true_iff_false, Qle_bool_iff.
  split; [apply Qnot_le_lt|apply Qlt_not_le].
Qed.

Lemma filter_bind {A B} (P : B → Prop) `{!∀ x, Decision (P x)} (f : A → list B) l :
  filter P (l ≫= f) = l ≫= (λ x, filter P (f x)).
Proof.
  induction l as [|x l IH]; [done|].
  by rewrite !bind_cons, filter_app, IH.
Qed.

Lemma persistent_check_fires fl now ip beh b :
  beh !! ip = Some b → ML.scores b ≠ [] →
  Py.gt fl (Py.mean fl (ML.scores b)) ML.anomaly_threshold = true →
  ML.persistent_check fl now ip beh = [ML.persistent_alert fl now ip (Py.mean fl (ML.scores b))].
Proof.
  intros Hb Hs Havg. unfold ML.persistent_check. rewrite Hb. cbv zeta. rewrite Havg.
  rewrite decide_True; [done|]. destruct (ML.scores b); simpl; [done|lia].
Qed.

Lemma persistent_check_inv fl now ip beh a :
  a ∈ ML.persistent_check fl now ip beh →
  ∃ b, beh !! ip = Some b ∧ ML.scores b ≠ []
       ∧ Py.gt fl (Py.mean fl (ML.scores b)) ML.anomaly_threshold = true
       ∧ a = ML.persistent_alert fl now ip (Py.mean fl (ML.scores b)).
Proof.
  unfold ML.persistent_check. destruct (beh !! ip) as [b|]; [|by intros ?%not_elem_of_nil].
  case_decide as Hlen; [|by intros ?%not_elem_of_nil]. cbv zeta.
  destruct (Py.gt fl _ _) eqn:Havg; [|by intros ?%not_elem_of_nil].
  intros ->%list_elem_of_singleton. exists b.
  repeat split; try done. intros E. rewrite E in Hlen. simpl in Hlen. lia.
Qed.

Lemma filter_persistent_flow_checks fl ip_is_private now beh p pkts :
  filter (λ a, type a = "Persistent Anomalous Behavior")
         (flow_checks fl ip_is_private now beh p pkts)
  = ML.persistent_check fl now (get src "" p) beh.
Proof.
  unfold flow_checks. rewrite !filter_app.
  assert (filter (λ a, type a = "Persistent Anomalous Behavior")
            (ML.brute_force_check now (get src "" p) (get dst "" p) (get dport 0%Z p) pkts)
          = []) as ->.
  { unfold ML.brute_force_check. by destruct (_ && _). }
  assert (filter (λ a, type a = "Persistent Anomalous Behavior")
            (ML.large_transfer_check ip_is_private now (get src "" p) (get dst "" p) pkts)
          = []) as ->.
  { unfold ML.large_transfer_check. by destruct (_ && _). }
  cbn [app]. unfold ML.persistent_check.
  destruct (beh !! _); [|done]. case_decide; [|done]. cbv zeta. by destruct (Py.gt fl _ _).
Qed.

Lemma filter_persistent_ml_alerts alerts :
  Forall (λ a, ∃ t, type a = "ML Detected: " +:+ t) alerts →
  filter (λ a, type a = "Persistent Anomalous Behavior") alerts = [].
Proof.
  induction 1 as [|a l [t Ht] _ IH]; [done|].
  rewrite filter_cons, IH, decide_False; [done|]. by rewrite Ht.
Qed.

(** On addresses without the separator, two packets have the same flow key
    exactly when they agree on source, destination and destination port. *)
Lemma flow_key_inj p q :
  sep_free p → sep_free q →
  ML.flow_key p = ML.flow_key q →
  get src "" p = get src "" q ∧ get dst "" p = get dst "" q
  ∧ get dport 0%Z p = get dport 0%Z q.
Proof.
  intros Hp Hq Hk%(f_equal (Py.split ":")).
  rewrite !split_flow_key in Hk by done. simplify_eq.
  repeat split; try done. by apply str_of_Z_inj.
Qed.

(** C4 (as amended).  When a call of [analyze] returns, the
    persistent-anomaly alerts among the alerts it returns are, in the order
    of the flows, one high-severity alert per flow of the batch whose source
    IP has, when the flows are analysed, at least one recorded score and a
    mean of its recorded scores that the code finds above 0.85 (mean and
    comparison as the float runtime computes them); there is one flow per
    distinct (source, destination, destination port) of the batch, so an IP
    gets as many alerts as it has flows in the batch, and none when it sends
    nothing in the batch. *)
Theorem persistent_anomaly_per_flow fl ip_is_private cnn_model svm_model
    network_data now ml_time st alerts :
  (ML.analyze fl ip_is_private cnn_model svm_model network_data now ml_time st).1
  = Py.Ok alerts →
  let beh := detection_behavior fl cnn_model svm_model network_data now ml_time st in
  filter (λ a, type a = "Persistent Anomalous Behavior") alerts
  = ML.group_flows network_data
      ≫= (λ item, ML.persistent_check fl now (key_src item.1) beh)
  ∧ (∀ ip b, beh !! ip = Some b → ML.scores b ≠ [] →
       Py.gt fl (Py.mean fl (ML.scores b)) ML.anomaly_threshold = true →
       ML.persistent_check fl now ip beh
       = [ML.persistent_alert fl now ip (Py.mean fl (ML.scores b))]
       ∧ alert_severity (ML.persistent_alert fl now ip (Py.mean fl (ML.scores b))) = high)
  ∧ (∀ ip a, a ∈ ML.persistent_check fl now ip beh →
       ∃ b, beh !! ip = Some b ∧ ML.scores b ≠ []
            ∧ Py.gt fl (Py.mean fl (ML.scores b)) ML.anomaly_threshold = true
            ∧ a = ML.persistent_alert fl now ip (Py.mean fl (ML.scores b)))
  ∧ NoDup (ML.group_flows network_data).*1
  ∧ (∀ item, item ∈ ML.group_flows network_data →
       ∃ p, p ∈ network_data ∧ item.1 = ML.flow_key p ∧ key_src item.1 = get src "" p)
  ∧ (∀ p, p ∈ network_data →
       ∃ pkts, (ML.flow_key p, pkts) ∈ ML.group_flows network_data
               ∧ key_src (ML.flow_key p) = get src "" p).
Proof.
  intros Hok beh.
  assert (Forall sep_free network_data
          ∧ filter (λ a, type a = "Persistent Anomalous Behavior") alerts
            = ML.group_flows network_data
                ≫= (λ item, ML.persistent_check fl now (key_src item.1) beh))
    as [Hall Hfilter].
  { destruct (decide (network_data = [])) as [->|Hne].
    - cbn in Hok. injection Hok as <-. by split; [constructor|].
    - apply analyze_ok_inv in Hok as (Hall & ml_alerts & Hc & _ & ->); [|done].
      split; [done|]. fold beh. rewrite Forall_forall in Hall.
      rewrite filter_app, (filter_persistent_ml_alerts ml_alerts)
        by (by eapply classify_types).
      cbn [app]. rewrite filter_bind. apply Forall_bind_ext, Forall_forall.
      intros [k pkts] (p & Hp & Hk)%group_flows_key. cbn [fst] in *. subst k.
      rewrite flow_out_sep_free, key_src_flow_key by auto.
      apply filter_persistent_flow_checks. }
  rewrite Forall_forall in Hall. repeat split.
  - done.
  - by apply persistent_check_fires.
  - intros ip a. apply persistent_check_inv.
  - apply NoDup_group_flows.
  - intros item (p & Hp & Hk)%group_flows_key. exists p. repeat split; try done.
    rewrite Hk. apply key_src_flow_key. auto.
  - intros p Hp. destruct (group_flows_covers _ _ Hp) as (pkts & Hin & _).
    exists pkts. split; [done|]. apply key_src_flow_key. auto.
Qed.

Lemma persistent_anomaly_per_flow_witness :
  let alerts := [ML.persistent_alert Exact.floats 100 "8.8.8.8" 0.875;
                 ML.persistent_alert Exact.floats 100 "8.8.8.8" 0.875] in
  (ML.analyze Exact.floats Ipv4.ip_is_private None None two_flows 100 100 scored_state).1
  = Py.Ok alerts
  ∧ filter (λ a, type a = "Persistent Anomalous Behavior") alerts
    = ML.group_flows two_flows
        ≫= (λ item, ML.persistent_check Exact.floats 100 (key_src item.1)
                      (detection_behavior Exact.floats None None two_flows 100 100
                         scored_state)).
Proof.
  intros alerts.
  assert ((ML.analyze Exact.floats Ipv4.ip_is_private None None two_flows 100 100
             scored_state).1 = Py.Ok alerts) as H1 by (vm_compute; reflexivity).
  split; [exact H1|].
  apply (persistent_anomaly_per_flow Exact.floats Ipv4.ip_is_private None None two_flows
           100 100 scored_state alerts H1).
Defined.

(** C4 as stated fails twice on one call: a scored host with two flows in the
    batch gets two persistent-anomaly alerts, and a scored host that sends
    nothing in the batch gets none.  The recorded scores are one float each,
    so that their means are the scores themselves. *)
Lemma persistent_anomaly_counterexample :
  let beh := detection_behavior Exact.floats None None two_flows 100 100 scored_state in
  ML.scores <$> beh !! "8.8.8.8" = Some [0.875%Q]
  ∧ ML.scores <$> beh !! "9.9.9.9" = Some [0.9375%Q]
  ∧ (0.85 < 0.875)%Q ∧ (0.85 < 0.9375)%Q
  ∧ (ML.analyze Exact.floats Ipv4.ip_is_private None None two_flows 100 100 scored_state).1
    = Py.Ok [ML.persistent_alert Exact.floats 100 "8.8.8.8" 0.875;
             ML.persistent_alert Exact.floats 100 "8.8.8.8" 0.875]
  ∧ description (ML.persistent_alert Exact.floats 100 "8.8.8.8" 0.875)
    = "IP 8.8.8.8 shows persistent anomalous behavior (score: 0.88)".
Proof. vm_compute. repeat split; reflexivity. Qed.

(** A batch too small for the classifiers. *)
Lemma classify_small fl cnn_model svm_model network_data ml_time beh :
  (length network_data < ML.batch_size)%nat →
  ML.classify fl cnn_model svm_model network_data ml_time beh = (Py.Ok [], beh).
Proof. intros Hlen. unfold ML.classify. rewrite decide_False; [done|lia]. Qed.

(** C2: the claim fails on the code.  Eleven events of one flow to port 22
    whose source is an IPv6 address: the flow key holds more than two [:],
    the unpacking of [flow_key.split(':')] raises [ValueError], and [analyze]
    returns no alert list at all. *)
Theorem brute_force_ipv6_flow_raises fl ip_is_private cnn_model svm_model now ml_time st :
  (ML.analyze fl ip_is_private cnn_model svm_model (ssh_attempts "2001:db8::5") now ml_time st).1
  = Py.Raise Py.ValueError.
Proof.
  rewrite (analyze_raises _ _ _ _ _ _ _ _ (pkt "2001:db8::5" "10.0.0.9" 22 100) []);
    [done|left| |].
  - intros [H _]. vm_compute in H. discriminate.
  - rewrite classify_small; [done|]. vm_compute. lia.
Qed.

(** In a call that returns, the flow of more than 10 events to one of the
    ports 22, 23, 3389, 445 adds exactly one brute-force alert. *)
Lemma brute_force_on_return fl ip_is_private cnn_model svm_model network_data now ml_time st
    alerts p :
  (ML.analyze fl ip_is_private cnn_model svm_model network_data now ml_time st).1
  = Py.Ok alerts →
  p ∈ network_data →
  get dport 0%Z p ∈ [22; 23; 3389; 445]%Z →
  (10 < length (filter (λ q, ML.flow_key q = ML.flow_key p) network_data))%nat →
  let beh := detection_behavior fl cnn_model svm_model network_data now ml_time st in
  ∃ ml_alerts pkts,
    alerts = ml_alerts ++ (ML.group_flows network_data ≫= flow_out fl ip_is_private now beh)
    ∧ (ML.flow_key p, pkts) ∈ ML.group_flows network_data
    ∧ filter (λ a, type a = "Potential Brute Force")
             (flow_out fl ip_is_private now beh (ML.flow_key p, pkts))
      = [ML.brute_force_alert now (get src "" p) (get dst "" p) (get dport 0%Z p)].
Proof.
  intros Hok Hp Hport Hlen beh.
  assert (network_data ≠ []) as Hne by (intros ->; by apply not_elem_of_nil in Hp).
  apply analyze_ok_inv in Hok as (Hall & ml_alerts & _ & _ & ->); [|done]. fold beh.
  destruct (group_flows_covers _ _ Hp) as (pkts & Hin & _).
  exists ml_alerts, pkts. split; [done|]. split; [done|].
  apply group_flows_elem in Hin as [_ ->].
  rewrite Forall_forall in Hall. rewrite flow_out_sep_free by auto.
  unfold flow_checks, ML.brute_force_check, ML.large_transfer_check, ML.persistent_check.
  rewrite !filter_app, bool_decide_eq_true_2, bool_decide_eq_true_2 by done.
  cbn [andb]. rewrite filter_cons, decide_True, filter_nil by done.
  assert (∀ l1 l2 : list alert, l1 = [] → l2 = [] → ∀ x, [x] ++ l1 ++ l2 = [x])
    as Hnil by (by intros ?? -> ->).
  apply Hnil.
  - by destruct (_ && _).
  - destruct (beh !! _); [|done]. case_decide; [|done]. cbv zeta.
    by destruct (Py.gt fl _ _).
Qed.

(** C3: the claim fails on the code.  [_analyze_flows] has no handler around
    its loop: with one IPv6 source in the batch [analyze] raises [ValueError]
    to its caller, the brute-force alert that the other flow earns (and gets,
    in the batch without that packet) is lost, and the clean-up is skipped. *)
Theorem flow_error_reaches_caller fl :
  let bad := pkt "2001:db8::5" "10.0.0.9" 80 100 in
  (ML.analyze fl Ipv4.ip_is_private None None (ssh_attempts "8.8.8.8") 100 100 ML.init).1
  = Py.Ok [ML.brute_force_alert 100 "8.8.8.8" "10.0.0.9" 22]
  ∧ (ML.analyze fl Ipv4.ip_is_private None None (ssh_attempts "8.8.8.8" ++ [bad]) 100 100 ML.init).1
    = Py.Raise Py.ValueError
  ∧ (ML.analyze fl Ipv4.ip_is_private None None [bad] 5000 5000 scored_state).1
    = Py.Raise Py.ValueError
  ∧ ML.ip_behavior (ML.analyze fl Ipv4.ip_is_private None None [bad] 5000 5000 scored_state).2
      !! "9.9.9.9"
    = ML.ip_behavior scored_state !! "9.9.9.9"
  ∧ ML._cleanup_old_data (5000 - 3600) (ML.ip_behavior scored_state) !! "9.9.9.9" = None.
Proof. vm_compute. repeat split; reflexivity. Qed.

(** C6: the claim fails on the code.  A flow of 200000 bytes to a destination
    that does not parse as an address, because it is a malformed IPv6 literal:
    its [:] break the flow key, [analyze] raises, and no large-transfer alert
    is returned. *)
Theorem large_transfer_unparseable_dst_raises fl :
  let e := pkt "10.0.0.5" "fe80::zz" 443 200000 in
  Ipv4.ip_is_private (get dst "" e) = None
  ∧ _is_internal_ip Ipv4.ip_is_private (get dst "" e) = false
  ∧ (100000 < Py.sumZ (get size_ 0%Z <$> [e]))%Z
  ∧ (ML.analyze fl Ipv4.ip_is_private None None [e] 100 100 ML.init).1
    = Py.Raise Py.ValueError.
Proof. vm_compute. repeat split; reflexivity. Qed.

(** In a call that returns, a flow to a destination that does not parse adds
    the large-transfer alert as soon as its sizes sum to more than 100000. *)
Lemma large_transfer_on_return fl ip_is_private cnn_model svm_model network_data now ml_time
    st alerts p :
  (ML.analyze fl ip_is_private cnn_model svm_model network_data now ml_time st).1
  = Py.Ok alerts →
  p ∈ network_data →
  ip_is_private (get dst "" p) = None →
  (100000 < Py.sumZ (get size_ 0%Z <$> filter (λ q, ML.flow_key q = ML.flow_key p) network_data))%Z →
  ML.large_transfer_alert now (get src "" p) (get dst "" p) ∈ alerts
  ∧ alert_severity (ML.large_transfer_alert now (get src "" p) (get dst "" p)) = medium.
Proof.
  intros Hok Hp Hdst Hsum.
  assert (network_data ≠ []) as Hne by (intros ->; by apply not_elem_of_nil in Hp).
  apply analyze_ok_inv in Hok as (Hall & ml_alerts & _ & _ & ->); [|done].
  split; [|done].
  apply elem_of_app. right. apply list_elem_of_bind.
  destruct (group_flows_covers _ _ Hp) as (pkts & Hin & _).
  exists (ML.flow_key p, pkts). split; [|done].
  apply group_flows_elem in Hin as [_ ->].
  rewrite Forall_forall in Hall. rewrite flow_out_sep_free by auto.
  unfold flow_checks. rewrite !elem_of_app. right. left.
  unfold ML.large_transfer_check, _is_internal_ip. rewrite Hdst.
  rewrite bool_decide_eq_true_2 by done. left.
Qed.

(** ** Bounded histories *)

Lemma lastn_le {A} n (l : list A) : (length l ≤ n)%nat → Py.lastn n l = l.
Proof. intros H. unfold Py.lastn. by replace (length l - n)%nat with 0%nat by lia. Qed.

Lemma length_lastn {A} n (l : list A) : length (Py.lastn n l) = Nat.min n (length l).
Proof. unfold Py.lastn. rewrite length_drop. lia. Qed.

Lemma lastn_app_lastn {A} n (l k : list A) :
  Py.lastn n (Py.lastn n l ++ k) = Py.lastn n (l ++ k).
Proof.
  unfold Py.lastn. rewrite !drop_app, drop_drop, !length_app, length_drop.
  f_equal; f_equal; lia.
Qed.

Lemma extend_history_lastn network_data history :
  ML.extend_history network_data history
  = Py.lastn ML.history_limit (history ++ network_data).
Proof.
  unfold ML.extend_history. case_decide; [done|].
  symmetry. apply lastn_le. lia.
Qed.

Section History.
Variable fl : Py.floats.
Variable ip_is_private : string → option bool.
Variable cnn_model : option (list packet → gmap string ML.behavior → option (list (nat * Q))).
Variable svm_model : option (list packet → gmap string ML.behavior → option (list Z)).

Lemma analyze_history_lastn network_data now ml_time st seen :
  ML.packet_history st = Py.lastn ML.history_limit seen →
  ML.packet_history (ML.analyze fl ip_is_private cnn_model svm_model network_data now ml_time st).2
  = Py.lastn ML.history_limit (seen ++ network_data).
Proof.
  intros Hst. rewrite analyze_history. destruct network_data as [|p l].
  - by rewrite app_nil_r.
  - by rewrite extend_history_lastn, Hst, lastn_app_lastn.
Qed.

Lemma run_calls_cons batch now ml_time calls st :
  run_calls fl ip_is_private cnn_model svm_model ((batch, now, ml_time) :: calls) st
  = run_calls fl ip_is_private cnn_model svm_model calls
      (ML.analyze fl ip_is_private cnn_model svm_model batch now ml_time st).2.
Proof. done. Qed.

(** The history after any sequence of calls is the last 1000 of everything
    that was passed in, in arrival order. *)
Lemma run_calls_history calls st seen :
  ML.packet_history st = Py.lastn ML.history_limit seen →
  ML.packet_history (run_calls fl ip_is_private cnn_model svm_model calls st)
  = Py.lastn ML.history_limit (seen ++ concat calls.*1.*1).
Proof.
  revert st seen. induction calls as [|[[batch now] ml_time] calls IH]; intros st seen Hst.
  - simpl. by rewrite app_nil_r.
  - rewrite run_calls_cons.
    rewrite (IH _ (seen ++ batch)) by (by apply analyze_history_lastn).
    rewrite !fmap_cons. cbn [fst concat]. by rewrite <- app_assoc.
Qed.

(** C7.  The packet history never holds more than 1000 events, and once 1500
    events have gone through [analyze], in whatever batches, it holds exactly
    the last 1000 of them in arrival order. *)
Theorem packet_history_fifo calls :
  let seen := concat calls.*1.*1 in
  let history :=
    ML.packet_history (run_calls fl ip_is_private cnn_model svm_model calls ML.init) in
  length seen = 1500%nat →
  (∀ k, (length (ML.packet_history
                   (run_calls fl ip_is_private cnn_model svm_model (take k calls) ML.init))
         ≤ 1000)%nat)
  ∧ length history = 1000%nat
  ∧ history = drop 500 seen.
Proof.
  intros seen history Hlen.
  assert (∀ cs, ML.packet_history (run_calls fl ip_is_private cnn_model svm_model cs ML.init)
                = Py.lastn 1000 (concat cs.*1.*1)) as Hrun.
  { intros cs. by rewrite (run_calls_history cs ML.init []). }
  split; [|split].
  - intros k. rewrite Hrun, length_lastn. lia.
  - subst history. rewrite Hrun, length_lastn. fold seen. lia.
  - subst history. rewrite Hrun. unfold Py.lastn. fold seen. by rewrite Hlen.
Qed.
End History.

Lemma packet_history_fifo_witness :
  let calls := [(replicate 700 (pkt "8.8.8.8" "10.0.0.9" 80 60), 1%Q, 1%Q);
                ([], 2%Q, 2%Q);
                (replicate 800 (pkt "9.9.9.9" "10.0.0.9" 53 60), 3%Q, 3%Q)] in
  length (concat calls.*1.*1) = 1500%nat
  ∧ length (ML.packet_history
              (run_calls Exact.floats Ipv4.ip_is_private None None calls ML.init))
    = 1000%nat
  ∧ ML.packet_history (run_calls Exact.floats Ipv4.ip_is_private None None calls ML.init)
    = drop 500 (concat calls.*1.*1).
Proof.
  intros calls.
  assert (length (concat calls.*1.*1) = 1500%nat) as H by (vm_compute; reflexivity).
  split; [exact H|].
  apply (packet_history_fifo Exact.floats Ipv4.ip_is_private None None calls H).
Defined.

(** ** Score histories *)


(** Inside [analyze] the guard [src_ip in self.ip_behavior] of the score
    update holds for every packet of the batch that has a source address:
    the tracking loop has just recorded it. *)
Lemma observe_keeps now beh p k :
  is_Some (beh !! k) → is_Some (ML.observe now beh p !! k).
Proof.
  intros Hk. unfold ML.observe. destruct (Py.truthy _); [|done].
  destruct (decide (get src "" p = k)) as [->|Hne].
  - rewrite lookup_insert_eq. eauto.
  - by rewrite lookup_insert_ne.
Qed.

Lemma fold_observe_keeps now l beh k :
  is_Some (beh !! k) → is_Some (fold_left (ML.observe now) l beh !! k).
Proof.
  revert beh. induction l as [|q l IH]; intros beh Hk; [done|].
  cbn [fold_left]. by apply IH, observe_keeps.
Qed.

Lemma observe_tracks now l beh p :
  p ∈ l → get src "" p ≠ "" →
  is_Some (fold_left (ML.observe now) l beh !! get src "" p).
Proof.
  intros Hin Hsrc. revert beh. induction l as [|q l IH]; intros beh.
  - by apply not_elem_of_nil in Hin.
  - cbn [fold_left]. apply elem_of_cons in Hin as [->|Hin]; [|by apply IH].
    apply fold_observe_keeps. unfold ML.observe.
    destruct (get src "" q) eqn:E; [done|]. cbn [Py.truthy].
    rewrite lookup_insert_eq. eauto.
Qed.









(** ** Reaping *)

Lemma filter_idemp {A} (P : A → Prop) `{!∀ x, Decision (P x)} (l : list A) :
  filter P (filter P l) = filter P l.
Proof.
  induction l as [|x l IH]; [done|].
  rewrite filter_cons. case_decide; [|done].
  by rewrite filter_cons, decide_True, IH.
Qed.

Lemma reap_entry_idemp {A} (P : A → Prop) `{!∀ x, Decision (P x)} (l : list A) :
  NA.reap_entry P l ≫= NA.reap_entry P = NA.reap_entry P l.
Proof.
  unfold NA.reap_entry. destruct (filter P l) as [|x l'] eqn:E; [done|].
  assert (filter P (x :: l') = x :: l') as E' by (rewrite <- E; apply filter_idemp).
  change (match filter P (x :: l') with [] => None | a :: l0 => Some (a :: l0) end
          = Some (x :: l')).
  by rewrite E'.
Qed.

Lemma omap_reap_entry_idemp {A} (P : A → Prop) `{!∀ x, Decision (P x)}
    (m : gmap string (list A)) :
  omap (NA.reap_entry P) (omap (NA.reap_entry P) m) = omap (NA.reap_entry P) m.
Proof.
  apply map_eq. intros k. rewrite !lookup_omap.
  destruct (m !! k) as [l|]; [|done]. cbn. apply reap_entry_idemp.
Qed.

(** C9.  Cleaning up twice with the same cutoff leaves every tracking map as
    one clean-up leaves it: the port-access records and the deauthentication
    records of [NetworkAnalyzer], the behaviour map of [MLNetworkAnalyzer]. *)
Theorem cleanup_idempotent cutoff (st : NA.state) (beh : gmap string ML.behavior) :
  NA._cleanup_old_entries cutoff (NA._cleanup_old_entries cutoff st)
  = NA._cleanup_old_entries cutoff st
  ∧ ML._cleanup_old_data cutoff (ML._cleanup_old_data cutoff beh)
    = ML._cleanup_old_data cutoff beh.
Proof.
  split.
  - unfold NA._cleanup_old_entries. cbn. by rewrite !omap_reap_entry_idemp.
  - unfold ML._cleanup_old_data. rewrite map_filter_filter.
    apply map_filter_ext. intros k b _. tauto.
Qed.

(** ** Events without a source address *)

Section EmptySource.
Variable ip_is_private : string → option bool.
Variable now : Q.

Lemma track_packet_empty_src acc e :
  get src "" e = "" →
  NA.ip_port_access (NA.track_packet ip_is_private now acc e).1 = NA.ip_port_access acc.1
  ∧ (NA.track_packet ip_is_private now acc e).2 = acc.2.
Proof.
  intros He. destruct acc as [st alerts]. unfold NA.track_packet. rewrite He. cbn.
  split; [done|]. unfold NA.check_attack_port.
  destruct (NA.suspicious_ports !! _); cbn; by rewrite app_nil_r.
Qed.

Lemma observe_empty_src beh e : get src "" e = "" → ML.observe now beh e = beh.
Proof. intros He. unfold ML.observe. by rewrite He. Qed.

Lemma tracked_cons p l st :
  tracked ip_is_private (p :: l) now st
  = tracked ip_is_private l now (NA.track_packet ip_is_private now (st, []) p).1.
Proof.
  unfold tracked. cbn [fold_left]. rewrite (track_packet_pair _ _ st []).
  by rewrite !fold_track_packet.
Qed.

(** The port-access records after the loop are those that the events with a
    source address leave. *)
Lemma tracked_access_filter l st1 st2 :
  NA.ip_port_access st1 = NA.ip_port_access st2 →
  NA.ip_port_access (tracked ip_is_private l now st1)
  = NA.ip_port_access
      (tracked ip_is_private (filter (λ p, get src "" p ≠ "") l) now st2).
Proof.
  revert st1 st2. induction l as [|p l IH]; intros st1 st2 Hst; [done|].
  rewrite tracked_cons, filter_cons. case_decide as Hp.
  - rewrite tracked_cons. apply IH. unfold NA.track_packet. cbn. by rewrite Hst.
  - apply IH.
    destruct (track_packet_empty_src (st1, []) p Hp) as [-> _]. done.
Qed.

Lemma watchlist_alerts_filter l :
  watchlist_alerts ip_is_private now l
  = watchlist_alerts ip_is_private now (filter (λ p, get src "" p ≠ "") l).
Proof.
  unfold watchlist_alerts. induction l as [|p l IH]; [done|].
  rewrite filter_cons, bind_cons, IH. case_decide as Hp; [by rewrite bind_cons|].
  destruct (track_packet_empty_src (NA.init, []) p Hp) as [_ Ha].
  rewrite track_packet_alerts in Ha. cbn in Ha. by rewrite Ha.
Qed.

Lemma fold_observe_filter l beh :
  fold_left (ML.observe now) l beh
  = fold_left (ML.observe now) (filter (λ p, get src "" p ≠ "") l) beh.
Proof.
  revert beh. induction l as [|p l IH]; intros beh; [done|].
  rewrite filter_cons. cbn [fold_left]. case_decide as Hp; [apply IH|].
  rewrite observe_empty_src by done. apply IH.
Qed.

(** C10.  An event whose source address is empty (or missing) adds nothing to
    the port-access records of [NetworkAnalyzer] and raises no watchlist
    alert, adds nothing to the behaviour map of [MLNetworkAnalyzer], and is
    still grouped into a flow, under the key that starts with the empty
    source. *)
Theorem empty_src_records_nothing network_data e (st : NA.state)
    (beh : gmap string ML.behavior) :
  get src "" e = "" →
  (∀ acc,
     NA.ip_port_access (NA.track_packet ip_is_private now acc e).1 = NA.ip_port_access acc.1
     ∧ (NA.track_packet ip_is_private now acc e).2 = acc.2)
  ∧ ML.observe now beh e = beh
  ∧ (let sourced := filter (λ p, get src "" p ≠ "") network_data in
     NA.ip_port_access (tracked ip_is_private network_data now st)
     = NA.ip_port_access (tracked ip_is_private sourced now st)
     ∧ watchlist_alerts ip_is_private now network_data
       = watchlist_alerts ip_is_private now sourced
     ∧ fold_left (ML.observe now) network_data beh
       = fold_left (ML.observe now) sourced beh)
  ∧ (e ∈ network_data →
     ∃ pkts,
       (":" +:+ get dst "" e +:+ ":" +:+ Py.str_of_Z (get dport 0%Z e), pkts)
         ∈ ML.group_flows network_data
       ∧ e ∈ pkts).
Proof.
  intros He. split; [|split; [|split]].
  - intros acc. by apply track_packet_empty_src.
  - by apply observe_empty_src.
  - split; [by apply tracked_access_filter|].
    split; [apply watchlist_alerts_filter|apply fold_observe_filter].
  - intros Hin. destruct (group_flows_covers _ _ Hin) as (pkts & Hk & Hp).
    exists pkts. split; [|done]. unfold ML.flow_key in Hk. by rewrite He in Hk.
Qed.
End EmptySource.

Lemma empty_src_records_nothing_witness :
  let e := pkt_no_src "10.0.0.9" 22 60 in
  let batch := [pkt "8.8.8.8" "10.0.0.9" 22 60; e] in
  get src "" e = ""
  ∧ NA.ip_port_access (tracked Ipv4.ip_is_private batch 100 NA.init)
    = NA.ip_port_access
        (tracked Ipv4.ip_is_private (filter (λ p, get src "" p ≠ "") batch) 100 NA.init)
  ∧ (e ∈ batch → ∃ pkts, (":10.0.0.9:22", pkts) ∈ ML.group_flows batch ∧ e ∈ pkts).
Proof.
  intros e batch.
  assert (get src "" e = "") as He by reflexivity.
  destruct (empty_src_records_nothing Ipv4.ip_is_private 100 batch e NA.init ∅ He)
    as (_ & _ & (Ha & _) & Hf).
  split; [exact He|]. split; [exact Ha|exact Hf].
Defined.

(** * Further properties of the analyzers *)

(** ** Lists and maps *)

Lemma extended_app {A} (old : option (list A)) (a b : list A) :
  extended (extended old a) b = extended old (a ++ b).
Proof.
  destruct a as [|x a]; [done|]. destruct b as [|y b].
  - by rewrite app_nil_r.
  - cbn. by rewrite <- app_assoc.
Qed.

Lemma filter_none {A} (P : A → Prop) `{!∀ x, Decision (P x)} (l : list A) :
  Forall (λ x, ¬ P x) l → filter P l = [].
Proof.
  induction 1 as [|x l Hx _ IH]; [done|]. by rewrite filter_cons, decide_False, IH.
Qed.

Lemma filter_all {A} (P : A → Prop) `{!∀ x, Decision (P x)} (l : list A) :
  Forall P l → filter P l = l.
Proof.
  induction 1 as [|x l Hx _ IH]; [done|]. by rewrite filter_cons, decide_True, IH.
Qed.

(** A loop over the items of a dict that emits one alert for the items that
    satisfy a condition emits as many alerts as there are such items. *)
Lemma length_bind_map_to_list {A B} (P : string * A → Prop) `{!∀ x, Decision (P x)}
    (alert_of : string * A → B) (m : gmap string A) :
  length (map_to_list m ≫= λ item, if decide (P item) then [alert_of item] else [])
  = size (filter P m).
Proof.
  induction m as [|k x m Hk IH] using map_ind.
  - by rewrite map_to_list_empty, map_filter_empty, map_size_empty.
  - rewrite map_to_list_insert by done. rewrite bind_cons, length_app, IH.
    rewrite map_filter_insert. case_decide.
    + rewrite map_size_insert_None; [done|].
      apply map_lookup_filter_None. by left.
    + by rewrite delete_id.
Qed.

(** ** [NetworkAnalyzer]: what a call leaves in the tracking dicts *)

Section NAState.
Variable ip_is_private : string → option bool.
Variable now : Q.

Lemma track_packet_access st alerts p ip :
  ip ≠ "" →
  NA.ip_port_access (NA.track_packet ip_is_private now (st, alerts) p).1 !! ip
  = extended (NA.ip_port_access st !! ip) (batch_accesses now ip [p]).
Proof.
  intros Hip. unfold NA.track_packet, batch_accesses. cbn [fst NA.ip_port_access].
  rewrite filter_cons, filter_nil.
  destruct (decide (get src "" p = ip)) as [->|Hne].
  - assert (Py.truthy ip = true) as -> by (by destruct ip).
    unfold NA.record. by rewrite lookup_insert_eq.
  - cbn. destruct (Py.truthy (get src "" p)); [|done].
    unfold NA.record. by rewrite lookup_insert_ne.
Qed.

Lemma deauth_condition p :
  bool_decide (get frame_type "" p = "management")
    && bool_decide (get frame_subtype "" p = "deauth")
    && Py.truthy (get src_mac "" p)
  = bool_decide (deauth_frame p).
Proof.
  unfold deauth_frame.
  assert (Py.truthy (get src_mac "" p) = bool_decide (get src_mac "" p ≠ "")) as ->.
  { destruct (get src_mac "" p); [|done]. by rewrite bool_decide_eq_false_2 by tauto. }
  repeat case_bool_decide; cbn; try done; tauto.
Qed.

Lemma track_packet_deauth st alerts p mac :
  NA.deauth_frames (NA.track_packet ip_is_private now (st, alerts) p).1 !! mac
  = extended (NA.deauth_frames st !! mac) (batch_deauths now mac [p]).
Proof.
  unfold NA.track_packet, batch_deauths. cbn [fst NA.deauth_frames].
  rewrite deauth_condition, filter_cons, filter_nil.
  destruct (decide (deauth_frame p)) as [Hd|Hd].
  - rewrite (bool_decide_eq_true_2 _ Hd). unfold NA.record.
    destruct (decide (get src_mac "" p = mac)) as [<-|Hne].
    + rewrite decide_True by done. by rewrite lookup_insert_eq.
    + rewrite decide_False by tauto. by rewrite lookup_insert_ne.
  - rewrite (bool_decide_eq_false_2 _ Hd), decide_False by tauto. done.
Qed.

(** X1.  The tracking loop appends: after it, the port-access records of an
    IP are its old records followed by one record [(now, dport)] for each
    packet of the batch from that IP, in arrival order, and the
    deauthentication records of a MAC are its old ones followed by [now] once
    for each management/deauth frame of the batch from that MAC. *)
Theorem tracking_appends network_data st ip mac :
  ip ≠ "" →
  NA.ip_port_access (tracked ip_is_private network_data now st) !! ip
  = extended (NA.ip_port_access st !! ip) (batch_accesses now ip network_data)
  ∧ NA.deauth_frames (tracked ip_is_private network_data now st) !! mac
    = extended (NA.deauth_frames st !! mac) (batch_deauths now mac network_data).
Proof.
  intros Hip. revert st. induction network_data as [|p l IH]; intros st; [done|].
  rewrite tracked_cons. destruct (IH (NA.track_packet ip_is_private now (st, []) p).1)
    as [-> ->].
  rewrite track_packet_access, track_packet_deauth, !extended_app by done.
  split; f_equal.
  - unfold batch_accesses. by rewrite <- fmap_app, <- filter_app.
  - unfold batch_deauths. by rewrite <- fmap_app, <- filter_app.
Qed.

End NAState.

(** X2.  [_cleanup_old_entries] keeps, for every key, exactly the records
    newer than the cutoff, in their order, and drops the key when none is
    left; it never adds a key or a record. *)
Theorem cleanup_keeps_newer cutoff st :
  (∀ ip recs,
     NA.ip_port_access (NA._cleanup_old_entries cutoff st) !! ip = Some recs
     ↔ recs ≠ []
       ∧ ∃ old, NA.ip_port_access st !! ip = Some old
                ∧ recs = filter (λ a, cutoff < a.1)%Q old)
  ∧ (∀ mac ts,
       NA.deauth_frames (NA._cleanup_old_entries cutoff st) !! mac = Some ts
       ↔ ts ≠ []
         ∧ ∃ old, NA.deauth_frames st !! mac = Some old
                  ∧ ts = filter (λ t, cutoff < t)%Q old).
Proof.
  assert (∀ A (P : A → Prop) `{!∀ x, Decision (P x)} (m : gmap string (list A)) k l,
            omap (NA.reap_entry P) m !! k = Some l
            ↔ l ≠ [] ∧ ∃ old, m !! k = Some old ∧ l = filter P old) as Hreap.
  { intros A P ? m k l. rewrite lookup_omap. unfold NA.reap_entry.
    destruct (m !! k) as [old|]; cbn; [|naive_solver].
    destruct (filter P old) as [|x l'] eqn:E; split.
    - done.
    - intros [Hne (old' & [= <-] & ->)]. by rewrite E in Hne.
    - intros [= <-]. split; [done|]. eauto.
    - intros [_ (old' & [= <-] & ->)]. by rewrite E. }
  split; intros k l; apply Hreap.
Qed.

(** ** [NetworkAnalyzer]: what a call returns and keeps *)

Lemma length_bind_filter {A B} (P : A → Prop) `{!∀ x, Decision (P x)}
    (f : A → B) (g : A → list B) (l : list A) :
  (∀ x, g x = if decide (P x) then [f x] else []) →
  length (l ≫= g) = length (filter P l).
Proof.
  intros Hg. induction l as [|x l IH]; [done|].
  rewrite bind_cons, length_app, IH, filter_cons, Hg. by case_decide.
Qed.

Section NACalls.
Variable ip_is_private : string → option bool.
Variable now : Q.

Lemma analyze_state network_data st :
  network_data ≠ [] →
  (NA.analyze ip_is_private network_data now st).2
  = NA._cleanup_old_entries (now - 60) (tracked ip_is_private network_data now st).
Proof.
  intros Hne. unfold NA.analyze. destruct network_data as [|p l]; [done|].
  by rewrite fold_track_packet.
Qed.

Lemma check_attack_port_watchlisted p :
  NA.check_attack_port ip_is_private now (get src "" p) (get dport 0%Z p)
  = if decide (watchlisted ip_is_private p)
    then [NA.access_attempt_alert now (get src "" p)
            (default "" (NA.suspicious_ports !! get dport 0%Z p)) (get dport 0%Z p)]
    else [].
Proof.
  unfold NA.check_attack_port.
  destruct (decide (watchlisted ip_is_private p)) as [(Hport & Hsrc & Hpriv)|Hn].
  - assert (∃ name, NA.suspicious_ports !! get dport 0%Z p = Some name) as [name ->].
    { rewrite !elem_of_cons, elem_of_nil in Hport.
      destruct Hport as [->|[->|[->|[]]]]; eexists; reflexivity. }
    assert (Py.truthy (get src "" p) = true) as -> by (by destruct (get src "" p)).
    unfold _is_internal_ip. by destruct (ip_is_private (get src "" p)) as [[]|].
  - destruct (NA.suspicious_ports !! get dport 0%Z p) as [name|] eqn:E; [|done].
    destruct (Py.truthy _ && negb _) eqn:C; [|done].
    destruct Hn. apply andb_prop in C as [Ht Hp]. repeat split.
    + apply suspicious_ports_lookup in E. rewrite !elem_of_cons, elem_of_nil in E.
      rewrite !elem_of_cons. destruct E as [E|[E|[E|[]]]]; simplify_eq; auto.
    + intros Hs. by rewrite Hs in Ht.
    + intros Hs. unfold _is_internal_ip in Hp. by rewrite Hs in Hp.
Qed.

Lemma port_scan_alert_type a st :
  a ∈ NA._detect_port_scans now st → type a = "Potential Port Scan".
Proof.
  unfold NA._detect_port_scans. intros (item & Ha & _)%list_elem_of_bind.
  by apply scan_of_ip_elem in Ha as [n ->].
Qed.

(** X3.  On a batch that is not empty, [analyze] returns as many
    access-attempt alerts as the batch has events to port 22, 3389 or 445
    from a non-empty source that is not private: one per such event, none
    for any other event. *)
Theorem access_attempt_alert_count network_data st :
  network_data ≠ [] →
  length (filter (λ a, type a ∈ ["SSH Access Attempt"; "RDP Access Attempt";
                                 "SMB Access Attempt"])
                 (NA.analyze ip_is_private network_data now st).1)
  = length (filter (watchlisted ip_is_private) network_data).
Proof.
  intros Hne. rewrite analyze_alerts, !filter_app by done.
  rewrite (filter_all _ (watchlist_alerts _ _ _)),
    (filter_none _ (NA._detect_port_scans _ _)),
    (filter_none _ (NA._detect_deauth_attacks _ _)), !app_nil_r.
  - unfold watchlist_alerts.
    apply (length_bind_filter _
             (λ p, NA.access_attempt_alert now (get src "" p)
                     (default "" (NA.suspicious_ports !! get dport 0%Z p))
                     (get dport 0%Z p))).
    apply check_attack_port_watchlisted.
  - apply Forall_forall. intros a ->%deauth_alert_type.
    rewrite !elem_of_cons, elem_of_nil. intros [H|[H|[H|[]]]]; discriminate H.
  - apply Forall_forall. intros a ->%port_scan_alert_type.
    rewrite !elem_of_cons, elem_of_nil. intros [H|[H|[H|[]]]]; discriminate H.
  - apply Forall_forall. intros a Ha. by eapply watchlist_alert_type.
Qed.

(** X4.  On a batch that is not empty, the port-scan alerts that [analyze]
    returns are as many as the IPs whose records newer than [now - 5], once
    the batch is recorded, hold at least 10 distinct ports. *)
Theorem port_scan_alert_count network_data st :
  network_data ≠ [] →
  length (filter (λ a, type a = "Potential Port Scan")
                 (NA.analyze ip_is_private network_data now st).1)
  = size (filter (λ item, (10 ≤ size (NA.unique_ports now item.2))%nat)
                 (NA.ip_port_access (tracked ip_is_private network_data now st))).
Proof.
  intros Hne. rewrite analyze_alerts, !filter_app by done.
  rewrite (filter_none _ (watchlist_alerts _ _ _)), (filter_none _ (NA._detect_deauth_attacks _ _)),
    filter_all, app_nil_r.
  - cbn [app]. unfold NA._detect_port_scans.
    apply (length_bind_map_to_list
             (λ item, (10 ≤ size (NA.unique_ports now item.2))%nat)
             (λ item, NA.port_scan_alert now item.1 (size (NA.unique_ports now item.2)))).
  - apply Forall_forall. intros a Ha. by eapply port_scan_alert_type.
  - apply Forall_forall. intros a ->%deauth_alert_type. discriminate.
  - apply Forall_forall. intros a Ha%watchlist_alert_type Ht. rewrite Ht in Ha.
    rewrite !elem_of_cons, elem_of_nil in Ha. destruct Ha as [H|[H|[H|[]]]]; discriminate H.
Qed.

(** X5.  On a batch that is not empty, the deauthentication alerts that
    [analyze] returns are as many as the MACs that have, once the batch is
    recorded, at least 5 deauthentication frames newer than [now - 3]. *)
Theorem deauth_alert_count network_data st :
  network_data ≠ [] →
  length (filter (λ a, type a = "WiFi Deauthentication Attack")
                 (NA.analyze ip_is_private network_data now st).1)
  = size (filter (λ item, (5 ≤ length (filter (λ t, now - 3 < t)%Q item.2))%nat)
                 (NA.deauth_frames (tracked ip_is_private network_data now st))).
Proof.
  intros Hne. rewrite analyze_alerts, !filter_app by done.
  rewrite (filter_none _ (watchlist_alerts _ _ _)), (filter_none _ (NA._detect_port_scans _ _)),
    filter_all.
  - cbn [app]. unfold NA._detect_deauth_attacks.
    apply (length_bind_map_to_list
             (λ item, (5 ≤ length (filter (λ t, now - 3 < t)%Q item.2))%nat)
             (λ item, NA.deauth_alert now item.1
                        (length (filter (λ t, now - 3 < t)%Q item.2)))).
  - apply Forall_forall. intros a Ha. by eapply deauth_alert_type.
  - apply Forall_forall. intros a ->%port_scan_alert_type. discriminate.
  - apply Forall_forall. intros a Ha%watchlist_alert_type Ht. rewrite Ht in Ha.
    rewrite !elem_of_cons, elem_of_nil in Ha. destruct Ha as [H|[H|[H|[]]]]; discriminate H.
Qed.
End NACalls.

Section NAStorage.
Variable ip_is_private : string → option bool.
Variable now : Q.

Lemma before_now (d : Q) : (0 < d)%Q → (now - d < now)%Q.
Proof.
  intros Hd. apply Qlt_minus_iff.
  assert (now + - (now - d) == d)%Q as -> by ring. done.
Qed.

Lemma Forall_filter_self {A} (P : A → Prop) `{!∀ x, Decision (P x)} (l : list A) :
  Forall P (filter P l).
Proof. apply Forall_forall. by intros x [? _]%list_elem_of_filter. Qed.

(** X6.  The 60-second storage horizon: after [analyze] on a batch that is
    not empty, every list kept in the two tracking dicts is non-empty and
    holds only entries newer than [now - 60]. *)
Theorem analyze_storage_horizon network_data st :
  network_data ≠ [] →
  let st' := (NA.analyze ip_is_private network_data now st).2 in
  (∀ ip recs, NA.ip_port_access st' !! ip = Some recs →
     recs ≠ [] ∧ Forall (λ a, now - 60 < a.1)%Q recs)
  ∧ (∀ mac ts, NA.deauth_frames st' !! mac = Some ts →
       ts ≠ [] ∧ Forall (λ t, now - 60 < t)%Q ts).
Proof.
  intros Hne st'. subst st'. rewrite analyze_state by done.
  destruct (cleanup_keeps_newer (now - 60)%Q (tracked ip_is_private network_data now st))
    as [Ha Hd].
  split.
  - intros ip recs (Hrecs & old & _ & ->)%Ha. split; [done|]. apply Forall_filter_self.
  - intros mac ts (Hts & old & _ & ->)%Hd. split; [done|]. apply Forall_filter_self.
Qed.

(** X7.  A source that sends in the batch is tracked after the call: its
    records are the old ones that are newer than [now - 60], followed by one
    record per packet it sent in the batch. *)
Theorem analyze_tracks_sources network_data st p :
  p ∈ network_data → get src "" p ≠ "" →
  NA.ip_port_access (NA.analyze ip_is_private network_data now st).2 !! get src "" p
  = Some (filter (λ a, now - 60 < a.1)%Q (default [] (NA.ip_port_access st !! get src "" p))
          ++ batch_accesses now (get src "" p) network_data).
Proof.
  intros Hin Hsrc.
  assert (network_data ≠ []) as Hne by (intros ->; by apply not_elem_of_nil in Hin).
  rewrite analyze_state by done.
  destruct (tracking_appends ip_is_private now network_data st (get src "" p) "" Hsrc)
    as [Ht _].
  assert ((now, get dport 0%Z p) ∈ batch_accesses now (get src "" p) network_data) as Hnew.
  { unfold batch_accesses. apply (list_elem_of_fmap_2 (λ q, (now, get dport 0%Z q))).
    by apply list_elem_of_filter. }
  destruct (batch_accesses now (get src "" p) network_data) as [|x new] eqn:Enew;
    [by apply not_elem_of_nil in Hnew|].
  cbn [extended] in Ht.
  assert (filter (λ a : Q * Z, (now - 60 < a.1)%Q) (x :: new) = x :: new) as Hkeep.
  { apply filter_all, Forall_forall. intros a Ha. rewrite <- Enew in Ha.
    unfold batch_accesses in Ha. apply list_elem_of_fmap in Ha as (q & -> & _).
    by apply before_now. }
  apply (proj1 (cleanup_keeps_newer (now - 60)%Q _)). split.
  - rewrite <- Hkeep. intros E. apply app_eq_nil in E as [_ E].
    by rewrite Hkeep in E.
  - eexists. split; [exact Ht|]. by rewrite filter_app, Hkeep.
Qed.
End NAStorage.

(** ** [MLNetworkAnalyzer]: the behaviour map *)

Lemma observed_add now a b old :
  observed now b (observed now a old) = observed now (a + b) old.
Proof.
  destruct a as [|a]; [done|]. destruct b as [|b].
  - by rewrite Nat.add_0_r.
  - cbn. do 2 f_equal. lia.
Qed.

Lemma observe_lookup now beh p ip :
  ip ≠ "" →
  ML.observe now beh p !! ip
  = observed now (length (filter (λ q, get src "" q = ip) [p])) (beh !! ip).
Proof.
  intros Hip. unfold ML.observe. rewrite filter_cons, filter_nil.
  destruct (decide (get src "" p = ip)) as [->|Hne].
  - assert (Py.truthy ip = true) as -> by (by destruct ip).
    rewrite lookup_insert_eq. cbn. do 2 f_equal. lia.
  - cbn. destruct (Py.truthy (get src "" p)); [|done]. by rewrite lookup_insert_ne.
Qed.

(** X8.  The tracking loop counts: after it, the entry of an IP that sent [n]
    packets of the batch has [n] more packets than before (starting from 0
    when the IP is new), [last_seen] set to [now] and its scores unchanged; an
    IP that sent nothing keeps its entry, or stays absent. *)
Theorem tracking_counts now network_data beh ip :
  ip ≠ "" →
  fold_left (ML.observe now) network_data beh !! ip
  = observed now (length (filter (λ p, get src "" p = ip) network_data)) (beh !! ip).
Proof.
  intros Hip. revert beh. induction network_data as [|p l IH]; intros beh; [done|].
  cbn [fold_left]. rewrite IH, observe_lookup, observed_add by done.
  f_equal. change (p :: l) with ([p] ++ l). by rewrite filter_app, length_app.
Qed.

Lemma record_score_frame ip x beh k :
  (λ b, (ML.packets b, ML.last_seen b)) <$> ML.record_score ip x beh !! k
  = (λ b, (ML.packets b, ML.last_seen b)) <$> beh !! k.
Proof.
  unfold ML.record_score. destruct (beh !! ip) as [b|] eqn:E; [|done].
  destruct (decide (ip = k)) as [<-|Hne].
  - by rewrite lookup_insert_eq, E.
  - by rewrite lookup_insert_ne.
Qed.

Lemma cnn_step_frame fl now pkts acc ipred k :
  (λ b, (ML.packets b, ML.last_seen b)) <$> (ML.cnn_step fl now pkts acc ipred).2 !! k
  = (λ b, (ML.packets b, ML.last_seen b)) <$> acc.2 !! k.
Proof.
  destruct acc as [alerts beh], ipred as [i [idx conf]]. unfold ML.cnn_step.
  destruct (_ && _); [|done]. apply record_score_frame.
Qed.

Lemma fold_cnn_step_frame fl now pkts ipreds acc k :
  (λ b, (ML.packets b, ML.last_seen b))
    <$> (fold_left (ML.cnn_step fl now pkts) ipreds acc).2 !! k
  = (λ b, (ML.packets b, ML.last_seen b)) <$> acc.2 !! k.
Proof.
  revert acc. induction ipreds as [|ipred l IH]; intros acc; [done|].
  cbn [fold_left]. by rewrite IH, cnn_step_frame.
Qed.

(** X9.  The classifier pass only touches score histories: whatever the
    models answer, it adds no IP to the behaviour map, removes none, and
    leaves every packet count and [last_seen] as the tracking loop set them. *)
Theorem classify_keeps_counters fl cnn_model svm_model network_data ml_time beh ip :
  (λ b, (ML.packets b, ML.last_seen b))
    <$> (ML.classify fl cnn_model svm_model network_data ml_time beh).2 !! ip
  = (λ b, (ML.packets b, ML.last_seen b)) <$> beh !! ip.
Proof.
  unfold ML.classify. case_decide; [|done].
  destruct (ML._extract_features beh network_data); [|done].
  unfold ML._run_ml_detection. destruct network_data as [|p l]; [done|].
  destruct cnn_model as [cnn|]; [|done].
  destruct (cnn (p :: l) beh) as [preds|]; [|done].
  pose proof (fold_cnn_step_frame fl ml_time (p :: l) (imap pair preds) ([], beh) ip) as Hf.
  by destruct (fold_left _ _ _).
Qed.

(** The bounds of score histories through the steps of a call. *)
Lemma scores_ok_record ip x beh :
  (ML.probability_threshold < x)%Q → scores_ok beh → scores_ok (ML.record_score ip x beh).
Proof.
  intros Hx Hok. unfold ML.record_score. destruct (beh !! ip) as [b|] eqn:E; [|done].
  destruct (Hok ip b E) as [Hlen Hall].
  apply map_Forall_insert_2; [|done]. cbn.
  assert (Forall (λ y, ML.probability_threshold < y)%Q (ML.scores b ++ [x])) as Happ
    by (apply Forall_app; split; [done|by apply Forall_singleton]).
  case_decide as Hc.
  - split; [rewrite length_lastn; lia|]. unfold Py.lastn. by apply Forall_drop.
  - split; [lia|done].
Qed.

Lemma scores_ok_observe now beh p : scores_ok beh → scores_ok (ML.observe now beh p).
Proof.
  intros Hok. unfold ML.observe. destruct (Py.truthy _); [|done].
  apply map_Forall_insert_2; [|done]. cbn.
  destruct (beh !! get src "" p) as [b|] eqn:E; cbn; [by apply (Hok _ _ E)|].
  split; [lia|constructor].
Qed.

Lemma scores_ok_fold_observe now l beh :
  scores_ok beh → scores_ok (fold_left (ML.observe now) l beh).
Proof.
  revert beh. induction l as [|p l IH]; intros beh Hok; [done|].
  cbn [fold_left]. by apply IH, scores_ok_observe.
Qed.

Lemma scores_ok_cnn_step fl now pkts acc ipred :
  scores_ok acc.2 → scores_ok (ML.cnn_step fl now pkts acc ipred).2.
Proof.
  destruct acc as [alerts beh], ipred as [i [idx conf]]. unfold ML.cnn_step.
  destruct (bool_decide _ && Py.Qgtb _ _) eqn:C; [|done].
  intros Hok. apply andb_prop in C as [_ Hc%Qgtb_true]. by apply scores_ok_record.
Qed.

Lemma scores_ok_classify fl cnn_model svm_model network_data ml_time beh :
  scores_ok beh → scores_ok (ML.classify fl cnn_model svm_model network_data ml_time beh).2.
Proof.
  intros Hok. unfold ML.classify. case_decide; [|done].
  destruct (ML._extract_features beh network_data); [|done].
  unfold ML._run_ml_detection. destruct network_data as [|p l]; [done|].
  destruct cnn_model as [cnn|]; [|done].
  destruct (cnn (p :: l) beh) as [preds|]; [|done].
  assert (∀ ipreds acc, scores_ok acc.2 →
            scores_ok (fold_left (ML.cnn_step fl ml_time (p :: l)) ipreds acc).2) as Hfold.
  { induction ipreds as [|ipred ipreds IH]; intros acc Hacc; [done|].
    cbn [fold_left]. by apply IH, scores_ok_cnn_step. }
  specialize (Hfold (imap pair preds) ([], beh) Hok).
  by destruct (fold_left _ _ _).
Qed.

Lemma scores_ok_analyze fl ip_is_private cnn_model svm_model network_data now ml_time st :
  scores_ok (ML.ip_behavior st) →
  scores_ok (ML.ip_behavior
               (ML.analyze fl ip_is_private cnn_model svm_model network_data now ml_time st).2).
Proof.
  intros Hok. unfold ML.analyze. destruct network_data as [|p l]; [done|].
  pose proof (scores_ok_classify fl cnn_model svm_model (p :: l) ml_time _
                (scores_ok_fold_observe now (p :: l) _ Hok)) as Hc.
  destruct (ML.classify _ _ _ _ _ _) as [[ml_alerts|e] beh]; cbn [snd] in Hc; [|done].
  destruct (ML._analyze_flows _ _ _ _ _); cbn; [|done].
  unfold ML._cleanup_old_data. intros k b [Hb _]%map_lookup_filter_Some. by apply (Hc k).
Qed.

(** X10.  Whatever batches an instance has analysed, whatever the models
    answered and whether or not calls raised, every score history holds at
    most 10 scores and every score in it exceeds 0.75. *)
Theorem score_histories_bounded fl ip_is_private cnn_model svm_model calls :
  map_Forall (λ _ b, (length (ML.scores b) ≤ 10)%nat
                     ∧ Forall (λ x, 0.75 < x)%Q (ML.scores b))
    (ML.ip_behavior (run_calls fl ip_is_private cnn_model svm_model calls ML.init)).
Proof.
  change (scores_ok (ML.ip_behavior
                       (run_calls fl ip_is_private cnn_model svm_model calls ML.init))).
  assert (scores_ok (ML.ip_behavior ML.init)) as Hinit by apply map_Forall_empty.
  revert Hinit. generalize ML.init.
  induction calls as [|[[batch now] ml_time] calls IH]; intros st Hst; [done|].
  rewrite run_calls_cons. by apply IH, scores_ok_analyze.
Qed.

(** ** [MLNetworkAnalyzer]: the classifier pass *)

(** X11.  A batch of fewer than 64 packets never reaches the models: the
    call returns and leaves what it would with no model loaded. *)
Theorem small_batch_skips_models fl ip_is_private cnn_model svm_model
    network_data now ml_time st :
  (length network_data < 64)%nat →
  ML.analyze fl ip_is_private cnn_model svm_model network_data now ml_time st
  = ML.analyze fl ip_is_private None None network_data now ml_time st.
Proof.
  intros Hlen. unfold ML.analyze, ML.classify.
  rewrite !decide_False by (unfold ML.batch_size; lia). done.
Qed.

(** X12.  A CNN whose prediction raises is absorbed: the call returns and
    leaves what it would with no model loaded, and the SVM is not consulted
    either. *)
Theorem failing_cnn_is_absorbed fl ip_is_private cnn svm_model network_data now ml_time st :
  (∀ pkts beh, cnn pkts beh = None) →
  ML.analyze fl ip_is_private (Some cnn) svm_model network_data now ml_time st
  = ML.analyze fl ip_is_private None None network_data now ml_time st.
Proof.
  intros Hcnn. unfold ML.analyze, ML.classify, ML._run_ml_detection, ML.run_svm.
  destruct network_data as [|p l]; [done|]. by rewrite Hcnn.
Qed.

Lemma fold_cnn_step_length fl now pkts ipreds acc :
  length (fold_left (ML.cnn_step fl now pkts) ipreds acc).1
  = (length acc.1 + length (filter (λ ipred, alerting ipred.2) ipreds))%nat.
Proof.
  revert acc. induction ipreds as [|[i [idx conf]] l IH]; intros [alerts beh].
  - cbn. lia.
  - cbn [fold_left]. rewrite IH, filter_cons. unfold ML.cnn_step, alerting. cbn [fst snd].
    destruct (decide ((0 < idx)%nat ∧ (ML.probability_threshold < conf)%Q)) as [[H1 H2]|Hn].
    + rewrite (bool_decide_eq_true_2 _ H1), (proj2 (Qgtb_true _ _) H2).
      cbn. rewrite length_app. cbn. lia.
    + destruct (bool_decide _ && Py.Qgtb _ _) eqn:C; [|done].
      apply andb_prop in C as [C1%bool_decide_eq_true C2%Qgtb_true]. tauto.
Qed.

Lemma filter_imap_pair_length {A} (P : A → Prop) `{!∀ x, Decision (P x)}
    (g : nat → nat) (l : list A) :
  length (filter (λ ix : nat * A, P ix.2) (imap (λ i x, (g i, x)) l))
  = length (filter P l).
Proof.
  revert g. induction l as [|x l IH]; intros g; [done|].
  cbn [imap]. rewrite !filter_cons. cbn [snd].
  case_decide; cbn [length]; by rewrite <- (IH (g ∘ S)).
Qed.

(** X13.  The CNN raises one alert for each prediction whose label is not 0
    and whose confidence exceeds 0.75, and none for any other: the benign
    label never alerts, however confident. *)
Theorem cnn_alert_count fl preds now pkts beh :
  pkts ≠ [] →
  length (ML._run_ml_detection fl (Some (λ _ _, Some preds)) None now pkts beh).1
  = length (filter (λ pred, (0 < pred.1)%nat ∧ (0.75 < pred.2)%Q) preds).
Proof.
  intros Hne. unfold ML._run_ml_detection, ML.run_svm.
  destruct pkts as [|p l]; [done|].
  pose proof (fold_cnn_step_length fl now (p :: l) (imap pair preds) ([], beh)) as Hlen.
  destruct (fold_left _ _ _) as [alerts beh']. cbn [fst] in *.
  rewrite app_nil_r, Hlen. cbn [length Nat.add].
  apply (filter_imap_pair_length alerting id).
Qed.

(** ** [MLNetworkAnalyzer]: flows *)



(** A batch of 64 packets without [:], one of them with a size of [10^400]:
    [size / 1500] overflows, the call raises [OverflowError] and the
    clean-up is not reached; without that packet the batch is too small for
    the classifiers and the call returns. *)
Lemma analyze_overflow_example fl :
  let big := pkt "8.8.8.8" "10.0.0.9" 80 (10 ^ 400) in
  let batch := replicate 63 (pkt "9.9.9.9" "10.0.0.9" 80 60) ++ [big] in
  Forall sep_free batch
  ∧ (ML.analyze fl Ipv4.ip_is_private None None batch 5000 5000 scored_state).1
    = Py.Raise Py.OverflowError
  ∧ ML.ip_behavior (ML.analyze fl Ipv4.ip_is_private None None batch 5000 5000 ML.init).2
      !! "8.8.8.8"
    = Some {| ML.packets := 1; ML.last_seen := 5000; ML.scores := [] |}
  ∧ (ML.analyze fl Ipv4.ip_is_private None None (take 63 batch) 5000 5000 ML.init).1
    = Py.Ok [].
Proof.
  intros big batch. split; [by repeat constructor|].
  vm_compute. repeat split; reflexivity.
Qed.

(** X15.  A flow key reads back: for addresses without [:], splitting the
    key at [:] gives the source, the destination and the port as written,
    [int] of the last part is the port, and two packets have the same key
    exactly when they agree on the three fields. *)
Theorem flow_key_round_trip p q :
  sep_free p → sep_free q →
  Py.split ":" (ML.flow_key p)
  = [get src "" p; get dst "" p; Py.str_of_Z (get dport 0%Z p)]
  ∧ Py.int_of_str (Py.str_of_Z (get dport 0%Z p)) = Py.Ok (get dport 0%Z p)
  ∧ (ML.flow_key p = ML.flow_key q
     ↔ get src "" p = get src "" q ∧ get dst "" p = get dst "" q
       ∧ get dport 0%Z p = get dport 0%Z q).
Proof.
  intros Hp Hq. split; [by apply split_flow_key|]. split; [apply int_of_str_of_Z|].
  split; [by apply flow_key_inj|]. intros (Hs & Hd & Hport).
  unfold ML.flow_key. by rewrite Hs, Hd, Hport.
Qed.

Lemma concat_flows_add key p flows :
  concat (ML.flows_add key p flows).*2 ≡ₚ p :: concat flows.*2.
Proof.
  induction flows as [|[k ps] rest IH]; [done|].
  cbn [ML.flows_add]. destruct (decide (k = key)) as [->|Hne];
    rewrite !fmap_cons; cbn [snd concat].
  - rewrite <- app_assoc. cbn [app]. by rewrite <- Permutation_middle.
  - rewrite IH. by rewrite <- Permutation_middle.
Qed.

(** X16.  The flows partition the batch: the keys of the flow dict are
    distinct, the packets of a flow are the packets of the batch with that
    key in arrival order, no flow is empty, and all flows together hold each
    packet of the batch once. *)
Theorem group_flows_partition network_data :
  NoDup (ML.group_flows network_data).*1
  ∧ (∀ key pkts,
       (key, pkts) ∈ ML.group_flows network_data
       ↔ pkts ≠ [] ∧ pkts = filter (λ q, ML.flow_key q = key) network_data)
  ∧ concat (ML.group_flows network_data).*2 ≡ₚ network_data.
Proof.
  split; [apply NoDup_group_flows|]. split; [intros; apply group_flows_elem|].
  induction network_data as [|p l IH] using rev_ind; [done|].
  rewrite group_flows_snoc, concat_flows_add, IH. apply Permutation_cons_append.
Qed.

Section FlowThresholds.
Variable fl : Py.floats.
Variable ip_is_private : string → option bool.
Variable now : Q.
Variable beh : gmap string ML.behavior.

Lemma filter_persistent_none (T : string) src_ip :
  T ≠ "Persistent Anomalous Behavior" →
  filter (λ a, type a = T) (ML.persistent_check fl now src_ip beh) = [].
Proof.
  intros HT. unfold ML.persistent_check. destruct (beh !! src_ip); [|done].
  case_decide; [|done]. cbv zeta. destruct (Py.gt fl _ _); [|done].
  rewrite filter_cons, decide_False; [done|]. cbn. congruence.
Qed.

(** X17.  The brute-force threshold: for addresses without [:], a flow adds
    one brute-force alert when it has more than 10 packets and its port is
    22, 23, 3389 or 445, and none otherwise; 10 packets are not enough. *)
Theorem brute_force_threshold p pkts :
  sep_free p →
  filter (λ a, type a = "Potential Brute Force")
         (flow_out fl ip_is_private now beh (ML.flow_key p, pkts))
  = if decide ((10 < length pkts)%nat ∧ get dport 0%Z p ∈ [22; 23; 3389; 445]%Z)
    then [ML.brute_force_alert now (get src "" p) (get dst "" p) (get dport 0%Z p)]
    else [].
Proof.
  intros Hp. rewrite flow_out_sep_free by done. unfold flow_checks.
  rewrite !filter_app, filter_persistent_none, app_nil_r by done.
  assert (filter (λ a, type a = "Potential Brute Force")
            (ML.large_transfer_check ip_is_private now (get src "" p) (get dst "" p) pkts)
          = []) as ->.
  { unfold ML.large_transfer_check. by destruct (_ && _). }
  rewrite app_nil_r. unfold ML.brute_force_check, ML.brute_force_ports.
  destruct (decide ((10 < length pkts)%nat ∧ get dport 0%Z p ∈ [22; 23; 3389; 445]%Z))
    as [[H1 H2]|Hn].
  - by rewrite (bool_decide_eq_true_2 _ H1), (bool_decide_eq_true_2 _ H2).
  - destruct (bool_decide _ && bool_decide _) eqn:C; [|done].
    apply andb_prop in C as [C1%bool_decide_eq_true C2%bool_decide_eq_true]. tauto.
Qed.

(** X18.  The large-transfer threshold: for addresses without [:], a flow
    adds one large-transfer alert when its destination is not a private
    address (or does not parse) and its sizes sum to more than 100000, and
    none otherwise; a private destination never alerts. *)
Theorem large_transfer_threshold p pkts :
  sep_free p →
  filter (λ a, type a = "Large Data Transfer")
         (flow_out fl ip_is_private now beh (ML.flow_key p, pkts))
  = if decide (ip_is_private (get dst "" p) ≠ Some true
               ∧ (100000 < Py.sumZ (get size_ 0%Z <$> pkts))%Z)
    then [ML.large_transfer_alert now (get src "" p) (get dst "" p)]
    else [].
Proof.
  intros Hp. rewrite flow_out_sep_free by done. unfold flow_checks.
  rewrite !filter_app, filter_persistent_none, app_nil_r by done.
  assert (filter (λ a, type a = "Large Data Transfer")
            (ML.brute_force_check now (get src "" p) (get dst "" p) (get dport 0%Z p) pkts)
          = []) as ->.
  { unfold ML.brute_force_check. by destruct (_ && _). }
  cbn [app]. unfold ML.large_transfer_check, _is_internal_ip.
  destruct (decide (ip_is_private (get dst "" p) ≠ Some true
                    ∧ (100000 < Py.sumZ (get size_ 0%Z <$> pkts))%Z)) as [[H1 H2]|Hn].
  - rewrite (bool_decide_eq_true_2 _ H2).
    by destruct (ip_is_private (get dst "" p)) as [[]|].
  - destruct (negb _ && bool_decide _) eqn:C; [|done].
    apply andb_prop in C as [C1 C2%bool_decide_eq_true].
    destruct Hn. split; [|done]. intros E. by rewrite E in C1.
Qed.
End FlowThresholds.

(** ** [MLNetworkAnalyzer]: what a call leaves in the behaviour map *)

(** X19.  After a call that returns, every IP left in the behaviour map was
    seen no earlier than [now - 3600], and every source of the batch is in
    it, seen at [now], with as many packets more than before as it sent in
    the batch. *)
Theorem analyze_behavior_after fl ip_is_private cnn_model svm_model
    network_data now ml_time st alerts p :
  (ML.analyze fl ip_is_private cnn_model svm_model network_data now ml_time st).1
  = Py.Ok alerts →
  p ∈ network_data → get src "" p ≠ "" →
  let after :=
    ML.ip_behavior
      (ML.analyze fl ip_is_private cnn_model svm_model network_data now ml_time st).2 in
  (∀ ip b, after !! ip = Some b → ¬ (ML.last_seen b < now - 3600)%Q)
  ∧ ∃ b, after !! get src "" p = Some b
         ∧ ML.last_seen b = now
         ∧ ML.packets b
           = (default 0%nat (ML.packets <$> ML.ip_behavior st !! get src "" p)
              + length (filter (λ q, get src "" q = get src "" p) network_data))%nat.
Proof.
  intros Hok Hin Hsrc after.
  assert (network_data ≠ []) as Hne by (intros ->; by apply not_elem_of_nil in Hin).
  apply analyze_ok_inv in Hok as (_ & _ & _ & Hok & _); [|done].
  subst after. rewrite Hok. cbn [snd ML.ip_behavior].
  unfold ML._cleanup_old_data. split.
  - by intros ip b [_ Hb]%map_lookup_filter_Some.
  - pose proof (classify_keeps_counters fl cnn_model svm_model network_data ml_time
                  (fold_left (ML.observe now) network_data (ML.ip_behavior st))
                  (get src "" p)) as Hc.
    rewrite tracking_counts in Hc by done. fold (detection_behavior fl cnn_model svm_model
      network_data now ml_time st) in Hc.
    assert (p ∈ filter (λ q, get src "" q = get src "" p) network_data) as Hp
      by (by apply list_elem_of_filter).
    destruct (filter (λ q, get src "" q = get src "" p) network_data) as [|q0 qs] eqn:Ef;
      [by apply not_elem_of_nil in Hp|].
    cbn [observed length] in Hc.
    destruct (detection_behavior fl cnn_model svm_model network_data now ml_time st
                !! get src "" p) as [b|] eqn:Eb; [|done].
    cbn in Hc. injection Hc as Hpk Hls.
    exists b. split; [|split; [done|]].
    + apply map_lookup_filter_Some. split; [done|]. cbn. rewrite Hls.
      apply Qle_not_lt, Qlt_le_weak, before_now. done.
    + rewrite Hpk. by destruct (ML.ip_behavior st !! get src "" p).
Qed.

(** ** Feature rows *)

Lemma unit_quotient z (n : positive) :
  (0 ≤ z ≤ Zpos n)%Z → (0 <= inject_Z z / inject_Z (Zpos n) <= 1)%Q.
Proof.
  intros [H0 Hn]. unfold Qle, Qdiv, Qmult, Qinv, inject_Z. cbn. split; nia.
Qed.

Lemma indicator_unit b : (0 <= MLFeatures.indicator b <= 1)%Q.
Proof. by destruct b. Qed.

Lemma proto_num_range proto : (0 ≤ MLFeatures.proto_num proto ≤ 3)%Z.
Proof. unfold MLFeatures.proto_num. repeat destruct (String.eqb _ _); lia. Qed.

Lemma recent_packets_unit src_ip beh :
  (0 <= MLFeatures.recent_packets src_ip beh <= 1)%Q.
Proof.
  unfold MLFeatures.recent_packets, MLFeatures.min_1.
  destruct (beh !! src_ip) as [b|]; [|done].
  destruct (Qle_bool _ 1) eqn:E; [|done].
  apply Qle_bool_iff in E. split; [|done].
  unfold Qle, Qdiv, Qmult, Qinv, inject_Z. cbn. lia.
Qed.

(** X20.  The feature matrix has one row per packet and every row has
    exactly 15 entries, the last two of which are the zero padding. *)
Theorem features_shape ip_is_private beh pkts :
  length (MLFeatures._extract_features ip_is_private beh pkts) = length pkts
  ∧ Forall (λ row, length row = 15%nat ∧ drop 13 row = [0%Q; 0%Q])
           (MLFeatures._extract_features ip_is_private beh pkts).
Proof.
  unfold MLFeatures._extract_features. split; [apply length_fmap|].
  apply Forall_fmap, Forall_forall. intros p _. done.
Qed.

(** X21.  For ports between 0 and 65535 and a size between 0 and 1500, every
    entry of the feature row of a packet lies between 0 and 1. *)
Theorem features_unit_range ip_is_private beh p :
  (0 ≤ get sport 0 p ≤ 65535)%Z → (0 ≤ get dport 0 p ≤ 65535)%Z →
  (0 ≤ get size_ 0 p ≤ 1500)%Z →
  Forall (λ x, 0 <= x <= 1)%Q
         (MLFeatures.fit (MLFeatures.packet_features ip_is_private beh p)).
Proof.
  intros Hs Hd Hz.
  change (MLFeatures.fit (MLFeatures.packet_features ip_is_private beh p))
    with (MLFeatures.packet_features ip_is_private beh p ++ [0%Q; 0%Q]).
  pose proof (proto_num_range (get proto "" p)) as Hproto.
  unfold MLFeatures.packet_features.
  repeat (apply Forall_cons; split);
    try apply indicator_unit; try apply recent_packets_unit;
    try (by apply (unit_quotient _ 65535));
    try (by apply (unit_quotient _ 3)); try (by apply (unit_quotient _ 1500));
    try done.
Qed.

(** ** The further properties on sample traffic *)

Lemma tracking_appends_witness :
  "198.51.100.7" ≠ ""
  ∧ NA.ip_port_access (tracked Ipv4.ip_is_private (scan_batch 3) 100 NA.init)
      !! "198.51.100.7"
    = extended (NA.ip_port_access NA.init !! "198.51.100.7")
               (batch_accesses 100 "198.51.100.7" (scan_batch 3)).
Proof.
  assert ("198.51.100.7" ≠ "") as H by discriminate.
  split; [exact H|].
  apply (tracking_appends Ipv4.ip_is_private 100 (scan_batch 3) NA.init
           "198.51.100.7" "" H).
Defined.

Lemma access_attempt_alert_count_witness :
  let batch := [pkt "8.8.8.8" "10.0.0.9" 22 60; pkt "10.0.0.5" "10.0.0.9" 22 60] in
  batch ≠ []
  ∧ length (filter (λ a, type a ∈ ["SSH Access Attempt"; "RDP Access Attempt";
                                   "SMB Access Attempt"])
                   (NA.analyze Ipv4.ip_is_private batch 100 NA.init).1)
    = length (filter (watchlisted Ipv4.ip_is_private) batch).
Proof.
  intros batch. assert (batch ≠ []) as H by discriminate.
  split; [exact H|]. apply (access_attempt_alert_count Ipv4.ip_is_private 100 batch NA.init H).
Defined.

Lemma port_scan_alert_count_witness :
  scan_batch 11 ≠ []
  ∧ length (filter (λ a, type a = "Potential Port Scan")
                   (NA.analyze Ipv4.ip_is_private (scan_batch 11) 100 NA.init).1)
    = size (filter (λ item, (10 ≤ size (NA.unique_ports 100 item.2))%nat)
                   (NA.ip_port_access
                      (tracked Ipv4.ip_is_private (scan_batch 11) 100 NA.init))).
Proof.
  assert (scan_batch 11 ≠ []) as H by discriminate.
  split; [exact H|].
  apply (port_scan_alert_count Ipv4.ip_is_private 100 (scan_batch 11) NA.init H).
Defined.

(** Five deauthentication frames from one station. *)
Lemma deauth_alert_count_witness :
  let frame := mk_packet None None None None None None None
                 (Some "management") (Some "deauth") (Some "aa-bb-cc-dd-ee-ff") in
  replicate 5 frame ≠ []
  ∧ length (filter (λ a, type a = "WiFi Deauthentication Attack")
                   (NA.analyze Ipv4.ip_is_private (replicate 5 frame) 100 NA.init).1)
    = size (filter (λ item, (5 ≤ length (filter (λ t, 100 - 3 < t)%Q item.2))%nat)
                   (NA.deauth_frames
                      (tracked Ipv4.ip_is_private (replicate 5 frame) 100 NA.init))).
Proof.
  intros frame. assert (replicate 5 frame ≠ []) as H by discriminate.
  split; [exact H|].
  apply (deauth_alert_count Ipv4.ip_is_private 100 (replicate 5 frame) NA.init H).
Defined.

Lemma analyze_storage_horizon_witness :
  scan_batch 3 ≠ []
  ∧ ∀ ip recs,
      NA.ip_port_access (NA.analyze Ipv4.ip_is_private (scan_batch 3) 100 NA.init).2 !! ip
      = Some recs →
      recs ≠ [] ∧ Forall (λ a, 100 - 60 < a.1)%Q recs.
Proof.
  assert (scan_batch 3 ≠ []) as H by discriminate.
  split; [exact H|].
  apply (analyze_storage_horizon Ipv4.ip_is_private 100 (scan_batch 3) NA.init H).
Defined.

Lemma analyze_tracks_sources_witness :
  let p := pkt "8.8.8.8" "10.0.0.9" 22 60 in
  p ∈ [p] ∧ get src "" p ≠ ""
  ∧ NA.ip_port_access (NA.analyze Ipv4.ip_is_private [p] 100 NA.init).2 !! get src "" p
    = Some (filter (λ a, 100 - 60 < a.1)%Q
                   (default [] (NA.ip_port_access NA.init !! get src "" p))
            ++ batch_accesses 100 (get src "" p) [p]).
Proof.
  intros p. assert (p ∈ [p]) as H1 by left.
  assert (get src "" p ≠ "") as H2 by discriminate.
  split; [exact H1|]. split; [exact H2|].
  apply (analyze_tracks_sources Ipv4.ip_is_private 100 [p] NA.init p H1 H2).
Defined.

Lemma tracking_counts_witness :
  "8.8.8.8" ≠ ""
  ∧ fold_left (ML.observe 100) two_flows (ML.ip_behavior scored_state) !! "8.8.8.8"
    = observed 100 (length (filter (λ p, get src "" p = "8.8.8.8") two_flows))
        (ML.ip_behavior scored_state !! "8.8.8.8").
Proof.
  assert ("8.8.8.8" ≠ "") as H by discriminate.
  split; [exact H|].
  apply (tracking_counts 100 two_flows (ML.ip_behavior scored_state) "8.8.8.8" H).
Defined.

Lemma small_batch_skips_models_witness :
  let cnn : list packet → gmap string ML.behavior → option (list (nat * Q)) :=
    λ pkts _, Some ((λ _, (1%nat, 0.9375%Q)) <$> pkts) in
  (length two_flows < 64)%nat
  ∧ ML.analyze Exact.floats Ipv4.ip_is_private (Some cnn) None two_flows 100 100 scored_state
    = ML.analyze Exact.floats Ipv4.ip_is_private None None two_flows 100 100 scored_state.
Proof.
  intros cnn. assert (length two_flows < 64)%nat as H by (cbn; lia).
  split; [exact H|].
  apply (small_batch_skips_models Exact.floats Ipv4.ip_is_private (Some cnn) None two_flows
           100 100 scored_state H).
Defined.

Lemma failing_cnn_is_absorbed_witness :
  let cnn : list packet → gmap string ML.behavior → option (list (nat * Q)) :=
    λ _ _, None in
  let svm : list packet → gmap string ML.behavior → option (list Z) :=
    λ pkts _, Some ((λ _, 1%Z) <$> pkts) in
  (∀ pkts beh, cnn pkts beh = None)
  ∧ ML.analyze Exact.floats Ipv4.ip_is_private (Some cnn) (Some svm)
      (replicate 64 (pkt "8.8.8.8" "10.0.0.9" 80 60)) 100 100 ML.init
    = ML.analyze Exact.floats Ipv4.ip_is_private None None
        (replicate 64 (pkt "8.8.8.8" "10.0.0.9" 80 60)) 100 100 ML.init.
Proof.
  intros cnn svm. assert (∀ pkts beh, cnn pkts beh = None) as H by done.
  split; [exact H|].
  apply (failing_cnn_is_absorbed Exact.floats Ipv4.ip_is_private cnn (Some svm) _ 100 100
           ML.init H).
Defined.

Lemma cnn_alert_count_witness :
  let preds := [(1%nat, 0.875%Q); (0%nat, 0.984375%Q); (3%nat, 0.5%Q)] in
  two_flows ≠ []
  ∧ length (ML._run_ml_detection Exact.floats (Some (λ _ _, Some preds)) None 100 two_flows
              (ML.ip_behavior scored_state)).1
    = length (filter (λ pred, (0 < pred.1)%nat ∧ (0.75 < pred.2)%Q) preds).
Proof.
  intros preds. assert (two_flows ≠ []) as H by discriminate.
  split; [exact H|].
  apply (cnn_alert_count Exact.floats preds 100 two_flows (ML.ip_behavior scored_state) H).
Defined.

Lemma flow_key_round_trip_witness :
  let p := pkt "8.8.8.8" "10.0.0.9" 80 60 in
  let q := pkt "8.8.8.8" "10.0.0.9" 443 60 in
  sep_free p ∧ sep_free q
  ∧ Py.split ":" (ML.flow_key p)
    = [get src "" p; get dst "" p; Py.str_of_Z (get dport 0%Z p)].
Proof.
  intros p q. assert (sep_free p) as Hp by (by split).
  assert (sep_free q) as Hq by (by split).
  split; [exact Hp|]. split; [exact Hq|].
  apply (flow_key_round_trip p q Hp Hq).
Defined.

Lemma brute_force_threshold_witness :
  let p := pkt "8.8.8.8" "10.0.0.9" 22 100 in
  sep_free p
  ∧ filter (λ a, type a = "Potential Brute Force")
           (flow_out Exact.floats Ipv4.ip_is_private 100 ∅ (ML.flow_key p, replicate 10 p))
    = if decide ((10 < length (replicate 10 p))%nat
                 ∧ get dport 0%Z p ∈ [22; 23; 3389; 445]%Z)
      then [ML.brute_force_alert 100 (get src "" p) (get dst "" p) (get dport 0%Z p)]
      else [].
Proof.
  intros p. assert (sep_free p) as Hp by (by split).
  split; [exact Hp|].
  apply (brute_force_threshold Exact.floats Ipv4.ip_is_private 100 ∅ p (replicate 10 p) Hp).
Defined.

Lemma large_transfer_threshold_witness :
  let p := pkt "10.0.0.5" "not-an-address" 443 200000 in
  sep_free p
  ∧ filter (λ a, type a = "Large Data Transfer")
           (flow_out Exact.floats Ipv4.ip_is_private 100 ∅ (ML.flow_key p, [p]))
    = if decide (Ipv4.ip_is_private (get dst "" p) ≠ Some true
                 ∧ (100000 < Py.sumZ (get size_ 0%Z <$> [p]))%Z)
      then [ML.large_transfer_alert 100 (get src "" p) (get dst "" p)]
      else [].
Proof.
  intros p. assert (sep_free p) as Hp by (by split).
  split; [exact Hp|].
  apply (large_transfer_threshold Exact.floats Ipv4.ip_is_private 100 ∅ p [p] Hp).
Defined.

Lemma analyze_behavior_after_witness :
  let p := pkt "8.8.8.8" "10.0.0.9" 80 60 in
  let alerts := [ML.persistent_alert Exact.floats 100 "8.8.8.8" 0.875;
                 ML.persistent_alert Exact.floats 100 "8.8.8.8" 0.875] in
  (ML.analyze Exact.floats Ipv4.ip_is_private None None two_flows 100 100 scored_state).1
  = Py.Ok alerts
  ∧ p ∈ two_flows ∧ get src "" p ≠ ""
  ∧ ∃ b, ML.ip_behavior
           (ML.analyze Exact.floats Ipv4.ip_is_private None None two_flows 100 100 scored_state).2
           !! get src "" p = Some b
         ∧ ML.last_seen b = 100%Q
         ∧ ML.packets b
           = (default 0%nat (ML.packets <$> ML.ip_behavior scored_state !! get src "" p)
              + length (filter (λ q, get src "" q = get src "" p) two_flows))%nat.
Proof.
  intros p alerts.
  assert ((ML.analyze Exact.floats Ipv4.ip_is_private None None two_flows 100 100
             scored_state).1 = Py.Ok alerts) as H1 by (vm_compute; reflexivity).
  assert (p ∈ two_flows) as H2 by left.
  assert (get src "" p ≠ "") as H3 by discriminate.
  split; [exact H1|]. split; [exact H2|]. split; [exact H3|].
  apply (analyze_behavior_after Exact.floats Ipv4.ip_is_private None None two_flows 100 100
           scored_state alerts p H1 H2 H3).
Defined.

Lemma features_unit_range_witness :
  let p := pkt "8.8.8.8" "10.0.0.9" 443 1500 in
  (0 ≤ get sport 0 p ≤ 65535)%Z ∧ (0 ≤ get dport 0 p ≤ 65535)%Z
  ∧ (0 ≤ get size_ 0 p ≤ 1500)%Z
  ∧ Forall (λ x, 0 <= x <= 1)%Q
           (MLFeatures.fit
              (MLFeatures.packet_features Ipv4.ip_is_private
                 (ML.ip_behavior scored_state) p)).
Proof.
  intros p. assert (0 ≤ get sport 0 p ≤ 65535)%Z as H1 by (cbn; lia).
  assert (0 ≤ get dport 0 p ≤ 65535)%Z as H2 by (cbn; lia).
  assert (0 ≤ get size_ 0 p ≤ 1500)%Z as H3 by (cbn; lia).
  split; [exact H1|]. split; [exact H2|]. split; [exact H3|].
  apply (features_unit_range Ipv4.ip_is_private (ML.ip_behavior scored_state) p H1 H2 H3).
Defined.

(** ** Calls in sequence and the shape of alerts *)

Lemma extended_Some {A} (old new : list A) : extended (Some old) new = Some (old ++ new).
Proof. destruct new; [by rewrite app_nil_r|done]. Qed.

(** X22.  Records carry over to the next call: when an IP sent packets in a
    call at [t1], the records that the detectors of the next call, at [t2],
    see for it are its older records that were newer than [t1 - 60], then its
    records of the first batch, then those of the second batch. *)
Theorem tracking_across_calls ip_is_private t1 t2 batch1 batch2 st p :
  p ∈ batch1 → get src "" p ≠ "" →
  NA.ip_port_access
    (tracked ip_is_private batch2 t2 (NA.analyze ip_is_private batch1 t1 st).2)
    !! get src "" p
  = Some (filter (λ a, t1 - 60 < a.1)%Q (default [] (NA.ip_port_access st !! get src "" p))
          ++ batch_accesses t1 (get src "" p) batch1
          ++ batch_accesses t2 (get src "" p) batch2).
Proof.
  intros Hin Hsrc.
  destruct (tracking_appends ip_is_private t2 batch2
              (NA.analyze ip_is_private batch1 t1 st).2 (get src "" p) "" Hsrc) as [-> _].
  rewrite (analyze_tracks_sources ip_is_private t1 batch1 st p Hin Hsrc).
  by rewrite extended_Some, <- app_assoc.
Qed.

Lemma tracking_across_calls_witness :
  let p := pkt "198.51.100.7" "10.0.0.9" 1 60 in
  p ∈ scan_batch 5 ∧ get src "" p ≠ ""
  ∧ NA.ip_port_access
      (tracked Ipv4.ip_is_private (scan_batch 9) 102
         (NA.analyze Ipv4.ip_is_private (scan_batch 5) 100 NA.init).2)
      !! get src "" p
    = Some (filter (λ a, 100 - 60 < a.1)%Q
                   (default [] (NA.ip_port_access NA.init !! get src "" p))
            ++ batch_accesses 100 (get src "" p) (scan_batch 5)
            ++ batch_accesses 102 (get src "" p) (scan_batch 9)).
Proof.
  intros p. assert (p ∈ scan_batch 5) as H1 by left.
  assert (get src "" p ≠ "") as H2 by discriminate.
  split; [exact H1|]. split; [exact H2|].
  apply (tracking_across_calls Ipv4.ip_is_private 100 102 (scan_batch 5) (scan_batch 9)
           NA.init p H1 H2).
Defined.

(** X23.  Every alert that [NetworkAnalyzer.analyze] returns carries the
    clock reading of the call, the source tag [network_traffic] and a
    severity of medium or high. *)
Theorem network_alert_shape ip_is_private network_data now st :
  Forall (λ a, timestamp a = now ∧ source a = "network_traffic" ∧ alert_severity a ≠ low)
         (NA.analyze ip_is_private network_data now st).1.
Proof.
  destruct network_data as [|p l]; [constructor|].
  rewrite analyze_alerts by done. rewrite !Forall_app. repeat split.
  - apply Forall_forall. unfold watchlist_alerts. intros a (q & Ha & _)%list_elem_of_bind.
    rewrite check_attack_port_watchlisted in Ha. case_decide; [|by apply not_elem_of_nil in Ha].
    by apply list_elem_of_singleton in Ha as ->.
  - apply Forall_forall. unfold NA._detect_port_scans.
    intros a (item & Ha & _)%list_elem_of_bind. by apply scan_of_ip_elem in Ha as [n ->].
  - apply Forall_forall. unfold NA._detect_deauth_attacks.
    intros a (item & Ha & _)%list_elem_of_bind. unfold NA.deauth_of_mac in Ha.
    case_decide; [|by apply not_elem_of_nil in Ha].
    by apply list_elem_of_singleton in Ha as ->.
Qed.

Section MLAlertShape.
Variable fl : Py.floats.
Variable ip_is_private : string → option bool.
Variable cnn_model : option (list packet → gmap string ML.behavior → option (list (nat * Q))).
Variable svm_model : option (list packet → gmap string ML.behavior → option (list Z)).

Lemma classify_alert_shape network_data ml_time beh ml_alerts :
  (ML.classify fl cnn_model svm_model network_data ml_time beh).1 = Py.Ok ml_alerts →
  Forall (λ a, timestamp a = ml_time ∧ source a = "ml_network_analyzer"
               ∧ alert_severity a ≠ low) ml_alerts.
Proof.
  intros Hc. rewrite (classify_ok_inv _ _ _ _ _ _ _ Hc) in Hc.
  case_decide; cbn [fst] in Hc; injection Hc as <-; [|constructor].
  assert (Forall (λ a, timestamp a = ml_time ∧ source a = "ml_network_analyzer"
                       ∧ alert_severity a ≠ low)
                 (ML.run_svm svm_model ml_time network_data beh)) as Hsvm.
  { unfold ML.run_svm. destruct svm_model as [svm|]; [|constructor].
    destruct (svm network_data beh) as [preds|]; [|constructor].
    apply Forall_forall. intros a (ipred & Ha & _)%list_elem_of_bind.
    unfold ML.svm_step in Ha. case_decide; [|by apply not_elem_of_nil in Ha].
    by apply list_elem_of_singleton in Ha as ->. }
  unfold ML._run_ml_detection. destruct network_data as [|p l]; [constructor|].
  destruct cnn_model as [cnn|]; [|done].
  destruct (cnn (p :: l) beh) as [preds|]; [|constructor].
  assert (∀ ipreds acc,
            Forall (λ a, timestamp a = ml_time ∧ source a = "ml_network_analyzer"
                         ∧ alert_severity a ≠ low) acc.1 →
            Forall (λ a, timestamp a = ml_time ∧ source a = "ml_network_analyzer"
                         ∧ alert_severity a ≠ low)
                   (fold_left (ML.cnn_step fl ml_time (p :: l)) ipreds acc).1) as Hfold.
  { induction ipreds as [|[i [idx conf]] ipreds IH]; intros [alerts b] Hacc; [done|].
    cbn [fold_left]. apply IH. unfold ML.cnn_step. destruct (_ && _); [|done].
    cbn [fst] in *. apply Forall_app. split; [done|]. apply Forall_singleton.
    repeat split. cbn. by destruct (Py.gt fl conf 0.9). }
  specialize (Hfold (imap pair preds) ([], beh) (Forall_nil_2 _)).
  destruct (fold_left _ _ _) as [alerts beh']. by apply Forall_app.
Qed.

Lemma flows_loop_shape (P : alert → Prop) now beh flows acc out :
  (∀ item new, ML.analyze_flow fl ip_is_private now beh item = Py.Ok new → Forall P new) →
  Forall P acc →
  ML.flows_loop fl ip_is_private now beh flows acc = Py.Ok out → Forall P out.
Proof.
  intros Hflow. revert acc. induction flows as [|item rest IH]; intros acc Hacc.
  - by intros [= <-].
  - cbn [ML.flows_loop]. destruct (ML.analyze_flow _ _ _ _ item) as [new|e] eqn:E; [|done].
    cbn. apply IH. apply Forall_app. split; [done|]. by eapply Hflow.
Qed.

Lemma analyze_flow_shape now beh item new :
  ML.analyze_flow fl ip_is_private now beh item = Py.Ok new →
  Forall (λ a, timestamp a = now ∧ source a = "ml_network_analyzer"
               ∧ alert_severity a ≠ low) new.
Proof.
  unfold ML.analyze_flow.
  destruct (Py.split ":" item.1) as [|s [|d [|pt [|x l]]]]; try done.
  destruct (Py.int_of_str pt) as [port|e]; [|done]. cbn. intros [= <-].
  rewrite !Forall_app. repeat split.
  - unfold ML.brute_force_check. destruct (_ && _); [|constructor].
    by apply Forall_singleton.
  - unfold ML.large_transfer_check. destruct (_ && _); [|constructor].
    by apply Forall_singleton.
  - unfold ML.persistent_check. destruct (beh !! s); [|constructor].
    case_decide; [|constructor]. cbv zeta. destruct (Py.gt fl _ _); [|constructor].
    by apply Forall_singleton.
Qed.

(** X24.  Every alert that [MLNetworkAnalyzer.analyze] returns carries the
    source tag [ml_network_analyzer], a severity of medium or high, and the
    clock reading of [analyze] or, for the alerts of the models, that of the
    classifier pass. *)
Theorem ml_alert_shape network_data now ml_time st alerts :
  (ML.analyze fl ip_is_private cnn_model svm_model network_data now ml_time st).1
  = Py.Ok alerts →
  Forall (λ a, (timestamp a = now ∨ timestamp a = ml_time)
               ∧ source a = "ml_network_analyzer" ∧ alert_severity a ≠ low) alerts.
Proof.
  unfold ML.analyze. destruct network_data as [|p l]; [by intros [= <-]|].
  pose proof (classify_alert_shape (p :: l) ml_time
                (fold_left (ML.observe now) (p :: l) (ML.ip_behavior st))) as Hml.
  destruct (ML.classify _ _ _ _ _ _) as [[ml_alerts|e] beh]; [|done].
  specialize (Hml ml_alerts eq_refl).
  destruct (ML._analyze_flows _ _ _ _ _) as [flow_alerts|e] eqn:E; [|done].
  cbn. intros [= <-]. apply Forall_app. split.
  - eapply Forall_impl; [exact Hml|]. naive_solver.
  - apply (flows_loop_shape
             (λ a, timestamp a = now ∧ source a = "ml_network_analyzer"
                   ∧ alert_severity a ≠ low) now beh _ [] flow_alerts) in E.
    + eapply Forall_impl; [exact E|]. naive_solver.
    + intros item new Hnew. by eapply analyze_flow_shape.
    + constructor.
Qed.
End MLAlertShape.

Lemma ml_alert_shape_witness :
  let alerts := [ML.persistent_alert Exact.floats 100 "8.8.8.8" 0.875;
                 ML.persistent_alert Exact.floats 100 "8.8.8.8" 0.875] in
  (ML.analyze Exact.floats Ipv4.ip_is_private None None two_flows 100 101 scored_state).1
  = Py.Ok alerts
  ∧ Forall (λ a, (timestamp a = 100%Q ∨ timestamp a = 101%Q)
                 ∧ source a = "ml_network_analyzer" ∧ alert_severity a ≠ low) alerts.
Proof.
  intros alerts.
  assert ((ML.analyze Exact.floats Ipv4.ip_is_private None None two_flows 100 101
             scored_state).1 = Py.Ok alerts) as H by (vm_compute; reflexivity).
  split; [exact H|].
  apply (ml_alert_shape Exact.floats Ipv4.ip_is_private None None two_flows 100 101
           scored_state alerts H).
Defined.
